(** * WeatherService: coordinate validation, provider mapping, API-key gate

    A shallow embedding of the TypeScript sources
      - [mappers/OpenWeatherMapper.ts]
      - [services/OpenWeatherService.ts]
      - [routes/WeatherRoute.ts]
      - [middleware/apiKeyValidator.ts]
    together with the fragment of the ECMAScript runtime they rely on
    ([parseFloat], [parseInt], [ToString], [ToNumber], property access,
    truthiness). *)

From Stdlib Require Import ZArith QArith Qround Lia Lqa.
From Stdlib Require Import String Ascii List DecimalString.
From stdpp Require Import base option list gmap strings.

Local Open Scope string_scope.
Local Open Scope Z_scope.

(* ===================================================================== *)
(** ** ECMAScript numbers *)
(* ===================================================================== *)

(** A Number is an IEEE-754 binary64 value.  A finite one is carried by the
    rational it denotes, kept in lowest terms, so that the comparisons of the
    source ([<], [<=], [>]) are the comparisons of [Q].  The sign of zero is
    not kept: nothing in the modelled code observes it (no division, no
    [Object.is]; [String(-0)] is ["0"]). *)
Inductive JsNumber : Type :=
  | NaN
  | PosInf
  | NegInf
  | Fin (q : Q).

Definition isNaN (x : JsNumber) : bool :=
  match x with NaN => true | _ => false end.

(** [x < y], [x <= y] and [x > y] of the language: false as soon as one side
    is NaN. *)
Definition js_lt (x y : JsNumber) : bool :=
  match x, y with
  | NaN, _ | _, NaN => false
  | PosInf, _ => false
  | _, NegInf => false
  | NegInf, _ => true
  | _, PosInf => true
  | Fin a, Fin b => negb (Qle_bool b a)
  end.

Definition js_le (x y : JsNumber) : bool :=
  match x, y with
  | NaN, _ | _, NaN => false
  | NegInf, _ => true
  | _, PosInf => true
  | PosInf, _ => false
  | _, NegInf => false
  | Fin a, Fin b => Qle_bool a b
  end.

Definition js_gt (x y : JsNumber) : bool := js_lt y x.

Definition js_neg (x : JsNumber) : JsNumber :=
  match x with
  | NaN => NaN
  | PosInf => NegInf
  | NegInf => PosInf
  | Fin q => Fin (Qred (- q)%Q)
  end.

Definition ofZ (z : Z) : JsNumber := Fin (inject_Z z).

(** *** Rounding a rational to binary64 (round to nearest, ties to even) *)

Definition pow2 (e : Z) : Q := Qpower 2 e.
Definition pow10 (e : Z) : Q := Qpower 10 e.

(** [floorLog2 q] for [q > 0]: the [e] with [2^e <= q < 2^(e+1)]. *)
Definition floorLog2 (q : Q) : Z :=
  let e0 := Z.log2 (Qnum q) - Z.log2 (Zpos (Qden q)) in
  if Qle_bool (pow2 e0) q then e0 else e0 - 1.

Definition roundHalfEven (q : Q) : Z :=
  let m := Qfloor q in
  let r := (q - inject_Z m)%Q in
  match (r ?= (1 # 2))%Q with
  | Lt => m
  | Gt => m + 1
  | Eq => if Z.even m then m else m + 1
  end.

(** Positive rationals only; 53 bits of precision, least exponent -1074,
    overflow at [2^1024]. *)
Definition round64_pos (q : Q) : JsNumber :=
  let e := floorLog2 q in
  let p := Z.max (e - 52) (-1074) in
  let m := roundHalfEven (q / pow2 p)%Q in
  let v := Qred (inject_Z m * pow2 p)%Q in
  if Qle_bool (pow2 1024) v then PosInf else Fin v.

Definition round64 (q : Q) : JsNumber :=
  match Qnum q with
  | Z0 => Fin 0
  | Zpos _ => round64_pos q
  | Zneg _ => js_neg (round64_pos (- q)%Q)
  end.

(* ===================================================================== *)
(** ** Reading numbers from strings *)
(* ===================================================================== *)

(** Strings are sequences of code units below 256. *)

(** WhiteSpace and LineTerminator code units: TAB, LF, VT, FF, CR, SP, NBSP. *)
Definition isWhiteSpace (c : ascii) : bool :=
  let n := N_of_ascii c in
  ((9 <=? n) && (n <=? 13) || (n =? 32) || (n =? 160))%N.

Fixpoint trimStart (s : string) : string :=
  match s with
  | String c r => if isWhiteSpace c then trimStart r else s
  | EmptyString => s
  end.

Fixpoint allWhiteSpace (s : string) : bool :=
  match s with
  | String c r => isWhiteSpace c && allWhiteSpace r
  | EmptyString => true
  end.

(** The value of a digit in radix up to 36. *)
Definition digitOf (c : ascii) : option Z :=
  let n := Z.of_N (N_of_ascii c) in
  if (48 <=? n) && (n <=? 57) then Some (n - 48)
  else if (97 <=? n) && (n <=? 122) then Some (n - 87)
  else if (65 <=? n) && (n <=? 90) then Some (n - 55)
  else None.

Definition digitIn (radix : Z) (c : ascii) : option Z :=
  match digitOf c with
  | Some d => if d <? radix then Some d else None
  | None => None
  end.

(** Longest run of digits at the head of [s]: the number read so far, how
    many digits were taken, and what is left. *)
Fixpoint scanRadix (radix : Z) (s : string) (acc : Z) (cnt : nat)
  : Z * nat * string :=
  match s with
  | String c r =>
      match digitIn radix c with
      | Some d => scanRadix radix r (acc * radix + d) (S cnt)
      | None => (acc, cnt, s)
      end
  | EmptyString => (acc, cnt, s)
  end.

Definition scanDigits := scanRadix 10.

Definition scanSign (s : string) : bool * string :=
  match s with
  | String c r =>
      if Ascii.eqb c "+" then (false, r)
      else if Ascii.eqb c "-" then (true, r)
      else (false, s)
  | EmptyString => (false, s)
  end.

(** [s] without the prefix [p], when it starts with it. *)
Fixpoint stripPrefix (p s : string) : option string :=
  match p with
  | EmptyString => Some s
  | String a p' =>
      match s with
      | String b s' => if Ascii.eqb a b then stripPrefix p' s' else None
      | EmptyString => None
      end
  end.

(** ExponentPart, taken only when complete ([e], optional sign, a digit). *)
Definition scanExponent (s : string) : Z * string :=
  match s with
  | String c r =>
      if Ascii.eqb c "e" || Ascii.eqb c "E" then
        let '(neg, r1) := scanSign r in
        let '(v, n, r2) := scanDigits r1 0 0 in
        match n with
        | O => (0, s)
        | S _ => (if neg then - v else v, r2)
        end
      else (0, s)
  | EmptyString => (0, s)
  end.

Inductive Literal : Type :=
  | LitInfinity
  | LitDecimal (mantissa exp10 : Z).

(** Longest prefix that is a StrUnsignedDecimalLiteral. *)
Definition scanUnsignedDecimal (s : string) : option (Literal * string) :=
  match stripPrefix "Infinity" s with
  | Some rest => Some (LitInfinity, rest)
  | None =>
      let '(ip, ni, r1) := scanDigits s 0 0 in
      (* digits only, then perhaps an exponent *)
      let integer :=
        match ni with
        | O => None
        | S _ =>
            let '(e, r4) := scanExponent r1 in
            Some (LitDecimal ip e, r4)
        end in
      match r1 with
      | String c r2 =>
          if Ascii.eqb c "." then
            let '(m, nf, r3) := scanDigits r2 ip 0 in
            match ni, nf with
            | O, O => None
            | _, _ =>
                let '(e, r4) := scanExponent r3 in
                Some (LitDecimal m (e - Z.of_nat nf), r4)
            end
          else integer
      | EmptyString => integer
      end
  end.

(** The Number for the mathematical value of a literal. *)
Definition literalValue (l : Literal) : JsNumber :=
  match l with
  | LitInfinity => PosInf
  | LitDecimal m e => round64 (inject_Z m * pow10 e)
  end.

(** Longest prefix that is a StrDecimalLiteral, with its value. *)
Definition scanStrDecimalLiteral (s : string) : option (JsNumber * string) :=
  let '(neg, r) := scanSign s in
  match scanUnsignedDecimal r with
  | Some (l, rest) =>
      Some (if neg then js_neg (literalValue l) else literalValue l, rest)
  | None => None
  end.

(** [parseFloat] on a string. *)
Definition parseFloatStr (s : string) : JsNumber :=
  match scanStrDecimalLiteral (trimStart s) with
  | Some (v, _) => v
  | None => NaN
  end.

(** [parseInt(s, 10)] on a string. *)
Definition parseIntStr (s : string) : JsNumber :=
  let '(neg, r) := scanSign (trimStart s) in
  let '(v, n, _) := scanDigits r 0 0 in
  match n with
  | O => NaN
  | S _ => round64 (inject_Z (if neg then - v else v))
  end.

(** StringToNumber: the whole string has to be a numeric literal. *)
Definition scanNonDecimal (s : string) : option JsNumber :=
  match s with
  | String "0" (String c r) =>
      let radix :=
        if Ascii.eqb c "x" || Ascii.eqb c "X" then Some 16
        else if Ascii.eqb c "o" || Ascii.eqb c "O" then Some 8
        else if Ascii.eqb c "b" || Ascii.eqb c "B" then Some 2
        else None in
      match radix with
      | Some b =>
          let '(v, n, rest) := scanRadix b r 0 0 in
          match n with
          | O => Some NaN
          | S _ => Some (if allWhiteSpace rest then round64 (inject_Z v) else NaN)
          end
      | None => None
      end
  | _ => None
  end.

Definition stringToNumber (s : string) : JsNumber :=
  let t := trimStart s in
  if allWhiteSpace t then Fin 0
  else
    match scanNonDecimal t with
    | Some v => v
    | None =>
        match scanStrDecimalLiteral t with
        | Some (v, rest) => if allWhiteSpace rest then v else NaN
        | None => NaN
        end
    end.

(* ===================================================================== *)
(** ** Writing numbers as strings (Number::toString, radix 10) *)
(* ===================================================================== *)

Definition digitsOfZ (z : Z) : string :=
  NilZero.string_of_uint (N.to_uint (Z.to_N z)).

(** [floorLog10 q] for [q > 0]: the [n] with [10^n <= q < 10^(n+1)], found
    from the binary logarithm and at most three corrections. *)
Definition floorLog10 (q : Q) : Z :=
  let est := (floorLog2 q * 30103) / 100000 - 1 in
  if Qle_bool (pow10 (est + 3)) q then est + 3
  else if Qle_bool (pow10 (est + 2)) q then est + 2
  else if Qle_bool (pow10 (est + 1)) q then est + 1
  else est.

(** For [k] significant digits: the integers [s] next to [q / 10^(n-k)]
    whose decimal [s * 10^(n-k)] reads back as [q], closest first. *)
Definition digitCandidate (q : Q) (n k : Z) : option Z :=
  let scale := pow10 (n - k) in
  let lo := Qfloor (q / scale)%Q in
  let ok s := match round64 (inject_Z s * scale)%Q with
              | Fin v => Qeq_bool v q
              | _ => false
              end in
  let dlo := (q - inject_Z lo * scale)%Q in
  let dhi := (inject_Z (lo + 1) * scale - q)%Q in
  match ok lo, ok (lo + 1) with
  | true, true =>
      match (dlo ?= dhi)%Q with
      | Lt => Some lo
      | Gt => Some (lo + 1)
      | Eq => Some (if Z.even lo then lo else lo + 1)
      end
  | true, false => Some lo
  | false, true => Some (lo + 1)
  | false, false => None
  end.

(** Least [k] with a candidate; seventeen digits always identify a binary64. *)
Fixpoint shortestDigits (fuel : nat) (q : Q) (n k : Z) : Z * Z :=
  match fuel with
  | O => (Qfloor (q / pow10 (n - k))%Q, k)
  | S fuel' =>
      match digitCandidate q n k with
      | Some s => (s, k)
      | None => shortestDigits fuel' q n (k + 1)
      end
  end.

Fixpoint zeros (n : nat) : string :=
  match n with
  | O => ""
  | S n' => String "0" (zeros n')
  end.

Definition positiveToString (q : Q) : string :=
  let n0 := floorLog10 q + 1 in
  let '(s0, k0) := shortestDigits 17 q n0 1 in
  (* a candidate equal to [10^k] is the single digit 1, one place higher *)
  let '(s, k, n) := if s0 =? 10 ^ k0 then (1, 1, n0 + 1) else (s0, k0, n0) in
  let ds := digitsOfZ s in
  if (k <=? n) && (n <=? 21) then
    ds +:+ zeros (Z.to_nat (n - k))
  else if (0 <? n) && (n <=? 21) then
    String.substring 0 (Z.to_nat n) ds +:+ "." +:+
    String.substring (Z.to_nat n) (Z.to_nat (k - n)) ds
  else if (-6 <? n) && (n <=? 0) then
    "0." +:+ zeros (Z.to_nat (- n)) +:+ ds
  else
    let e := n - 1 in
    let es := (if e <? 0 then "-" else "+") +:+ digitsOfZ (Z.abs e) in
    if k =? 1 then ds +:+ "e" +:+ es
    else String.substring 0 1 ds +:+ "." +:+
         String.substring 1 (Z.to_nat (k - 1)) ds +:+ "e" +:+ es.

Definition numberToString (x : JsNumber) : string :=
  match x with
  | NaN => "NaN"
  | PosInf => "Infinity"
  | NegInf => "-Infinity"
  | Fin q =>
      match Qnum q with
      | Z0 => "0"
      | Zpos _ => positiveToString q
      | Zneg _ => "-" +:+ positiveToString (- q)%Q
      end
  end.

(* ===================================================================== *)
(** ** Values, completions and coercions *)
(* ===================================================================== *)

(** What a provider payload is made of: JSON data, and [undefined] for what
    a lookup does not find. *)
#[warnings="-register-all"]
Inductive JsValue : Type :=
  | JUndefined
  | JNull
  | JBool (b : bool)
  | JNum (x : JsNumber)
  | JStr (s : string)
  | JArr (elems : list JsValue)
  | JObj (fields : list (string * JsValue)).

Inductive JsError : Type :=
  | TypeError (msg : string)
  | HostError (name msg : string).

(** The outcome of evaluating an expression: a value or a thrown error. *)
Inductive Completion (A : Type) : Type :=
  | Normal (a : A)
  | Throw (e : JsError).
Arguments Normal {A} a.
Arguments Throw {A} e.

#[global] Instance Completion_ret : MRet Completion := @Normal.
#[global] Instance Completion_bind : MBind Completion :=
  fun A B f c => match c with Normal a => f a | Throw e => Throw e end.
#[global] Instance Completion_fmap : FMap Completion :=
  fun A B f c => match c with Normal a => Normal (f a) | Throw e => Throw e end.

(** Own property of an object built from JSON. *)
Fixpoint lookupField (k : string) (fields : list (string * JsValue))
  : option JsValue :=
  match fields with
  | [] => None
  | (k', v) :: r => if String.eqb k k' then Some v else lookupField k r
  end.

Definition truthy (v : JsValue) : bool :=
  match v with
  | JUndefined | JNull => false
  | JBool b => b
  | JNum NaN => false
  | JNum (Fin q) => negb (Qeq_bool q 0)
  | JNum _ => true
  | JStr s => negb (String.eqb s "")
  | JArr _ | JObj _ => true
  end.

(** ToString.  An array joins its elements with commas ([null] and
    [undefined] as the empty string).  An object is ["[object Object]"]
    unless it carries a [toString] field of its own: JSON data is never
    callable, so OrdinaryToPrimitive then finds no usable method. *)
Fixpoint toString (v : JsValue) : Completion string :=
  match v with
  | JUndefined => Normal "undefined"
  | JNull => Normal "null"
  | JBool true => Normal "true"
  | JBool false => Normal "false"
  | JNum x => Normal (numberToString x)
  | JStr s => Normal s
  | JArr elems =>
      (fix join (l : list JsValue) : Completion string :=
         match l with
         | [] => Normal ""
         | x :: r =>
             sx ← match x with
                  | JUndefined | JNull => Normal ""
                  | _ => toString x
                  end;
             match r with
             | [] => Normal sx
             | _ :: _ => sr ← join r; Normal (sx +:+ "," +:+ sr)
             end
         end) elems
  | JObj fields =>
      match lookupField "toString" fields with
      | Some _ => Throw (TypeError "Cannot convert object to primitive value")
      | None => Normal "[object Object]"
      end
  end.

(** ToNumber. *)
Definition toNumber (v : JsValue) : Completion JsNumber :=
  match v with
  | JUndefined => Normal NaN
  | JNull => Normal (Fin 0)
  | JBool true => Normal (Fin 1)
  | JBool false => Normal (Fin 0)
  | JNum x => Normal x
  | JStr s => Normal (stringToNumber s)
  | JArr _ | JObj _ => stringToNumber <$> toString v
  end.

(** The globals [parseFloat(v)] and [parseInt(v, 10)]. *)
Definition parseFloat (v : JsValue) : Completion JsNumber :=
  parseFloatStr <$> toString v.

Definition parseInt (v : JsValue) : Completion JsNumber :=
  parseIntStr <$> toString v.

(** An array index written as a property name. *)
Definition arrayIndex (k : string) : option nat :=
  let '(v, n, rest) := scanDigits k 0 0 in
  match n, rest with
  | S _, EmptyString => if String.eqb (digitsOfZ v) k then Some (Z.to_nat v) else None
  | _, _ => None
  end.

(** [v.k] and [v[k]] for the property names the sources read ([current],
    [weather], [0], [id], [feels_like], [alerts], [length], [event]); none
    of them is inherited from [Object.prototype]. *)
Definition getProp (v : JsValue) (k : string) : Completion JsValue :=
  match v with
  | JUndefined =>
      Throw (TypeError ("Cannot read properties of undefined (reading '" +:+ k +:+ "')"))
  | JNull =>
      Throw (TypeError ("Cannot read properties of null (reading '" +:+ k +:+ "')"))
  | JObj fields => Normal (default JUndefined (lookupField k fields))
  | JArr elems =>
      if String.eqb k "length" then Normal (JNum (ofZ (Z.of_nat (length elems))))
      else match arrayIndex k with
           | Some i => Normal (default JUndefined (elems !! i))
           | None => Normal JUndefined
           end
  | JStr s =>
      if String.eqb k "length" then Normal (JNum (ofZ (Z.of_nat (String.length s))))
      else match arrayIndex k with
           | Some i => Normal (match String.get i s with
                               | Some c => JStr (String c "")
                               | None => JUndefined
                               end)
           | None => Normal JUndefined
           end
  | JBool _ | JNum _ => Normal JUndefined
  end.

(* ===================================================================== *)
(** ** mappers/OpenWeatherMapper.ts *)
(* ===================================================================== *)

(** models/WeatherServiceData.ts; an alert keeps whatever [alert.event] was. *)
Record AlertSummary : Type := { event : JsValue }.

Record WeatherServiceData : Type := {
  current_condition : string;
  temperature_description : string;
  active_alerts : list AlertSummary
}.

(** mappers/WeatherMapper.interface.ts *)
Module WeatherMapper.
Record t : Type := {
  mapToWeatherServiceData : JsValue -> Completion WeatherServiceData
}.
End WeatherMapper.

Module OpenWeatherMapper.

Definition TEMP_EXTREMELY_COLD_UPPER : JsNumber := ofZ (-4).
Definition TEMP_VERY_COLD_UPPER : JsNumber := ofZ 14.
Definition TEMP_COLD_UPPER : JsNumber := ofZ 32.
Definition TEMP_CHILLY_UPPER : JsNumber := ofZ 50.
Definition TEMP_COOL_UPPER : JsNumber := ofZ 59.
Definition TEMP_MILD_UPPER : JsNumber := ofZ 68.
Definition TEMP_WARM_UPPER : JsNumber := ofZ 77.
Definition TEMP_HOT_UPPER : JsNumber := ofZ 86.
Definition TEMP_VERY_HOT_UPPER : JsNumber := ofZ 95.

Definition UNKNOWN_VALUE : string := "Unknown".

Definition conditionTable : list (Z * string) :=
    [ (200, "Thunderstorm with Light Rain");
      (201, "Thunderstorm with Rain");
      (202, "Thunderstorm with Heavy Rain");
      (210, "Light Thunderstorm");
      (211, "Thunderstorm");
      (212, "Heavy Thunderstorm");
      (221, "Ragged Thunderstorm");
      (230, "Thunderstorm with Light Drizzle");
      (231, "Thunderstorm with Drizzle");
      (232, "Thunderstorm with Heavy Drizzle");
      (300, "Light Intensity Drizzle");
      (301, "Drizzle");
      (302, "Heavy Intensity Drizzle");
      (310, "Light Intensity Drizzle Rain");
      (311, "Drizzle Rain");
      (312, "Heavy Intensity Drizzle Rain");
      (313, "Shower Rain and Drizzle");
      (314, "Heavy Shower Rain and Drizzle");
      (321, "Shower Drizzle");
      (500, "Light Rain");
      (501, "Moderate Rain");
      (502, "Heavy Intensity Rain");
      (503, "Very Heavy Rain");
      (504, "Extreme Rain");
      (511, "Freezing Rain");
      (520, "Light Intensity Shower Rain");
      (521, "Shower Rain");
      (522, "Heavy Intensity Shower Rain");
      (531, "Ragged Shower Rain");
      (600, "Light Snow");
      (601, "Snow");
      (602, "Heavy Snow");
      (611, "Sleet");
      (612, "Light Shower Sleet");
      (613, "Shower Sleet");
      (615, "Light Rain and Snow");
      (616, "Rain and Snow");
      (620, "Light Shower Snow");
      (621, "Shower Snow");
      (622, "Heavy Shower Snow");
      (701, "Mist");
      (711, "Smoke");
      (721, "Haze");
      (731, "Sand, Dust Whirls");
      (741, "Fog");
      (751, "Sand");
      (761, "Dust");
      (762, "Volcanic Ash");
      (771, "Squalls");
      (781, "Tornado");
      (800, "Clear Sky");
      (801, "Few Clouds");
      (802, "Scattered Clouds");
      (803, "Broken Clouds");
      (804, "Overcast Clouds") ].

Definition conditionMap : gmap Z string := list_to_map conditionTable.

(** [conditionMap[conditionCode]]: the key of a Number is its string, and
    the table only has keys that are strings of integers. *)
Definition conditionMapAt (conditionCode : JsNumber) : option string :=
  match conditionCode with
  | Fin q => match Qden q with
             | xH => conditionMap !! Qnum q
             | _ => None
             end
  | _ => None
  end.

(** Lines 121-184: what [mapCurrentCondition] does with the parsed code. *)
Definition describeCondition (conditionCode : JsNumber) : string :=
  if isNaN conditionCode then UNKNOWN_VALUE
  else
    match conditionMapAt conditionCode with
    | Some s => if String.eqb s "" then UNKNOWN_VALUE else s
    | None => UNKNOWN_VALUE
    end.

Definition mapCurrentCondition (data : JsValue) : Completion string :=
  current ← getProp data "current";
  weather ← getProp current "weather";
  weatherData ← getProp weather "0";
  id ← getProp weatherData "id";
  conditionCode ← parseInt id;
  mret (describeCondition conditionCode).

(** Lines 195-221: what [mapTempDescription] does with the parsed value. *)
Definition describeTemp (temp : JsNumber) : string :=
  if isNaN temp then UNKNOWN_VALUE
  else if js_le temp TEMP_EXTREMELY_COLD_UPPER then "Extremely Cold"
  else if js_le temp TEMP_VERY_COLD_UPPER then "Very Cold"
  else if js_le temp TEMP_COLD_UPPER then "Cold"
  else if js_le temp TEMP_CHILLY_UPPER then "Chilly"
  else if js_le temp TEMP_COOL_UPPER then "Cool"
  else if js_le temp TEMP_MILD_UPPER then "Mild"
  else if js_le temp TEMP_WARM_UPPER then "Warm"
  else if js_le temp TEMP_HOT_UPPER then "Hot"
  else if js_le temp TEMP_VERY_HOT_UPPER then "Very Hot"
  else if js_gt temp TEMP_VERY_HOT_UPPER then "Extremely Hot"
  else UNKNOWN_VALUE.

Definition mapTempDescription (data : JsValue) : Completion string :=
  current ← getProp data "current";
  feels_like ← getProp current "feels_like";
  temp ← parseFloat feels_like;
  mret (describeTemp temp).

(** [alerts.map(f)]: only an array has a [map] method. *)
Definition callMap {B} (alerts : JsValue) (f : JsValue -> Completion B)
  : Completion (list B) :=
  match alerts with
  | JArr elems => mapM f elems
  | _ => Throw (TypeError "alerts.map is not a function")
  end.

Definition mapAlerts (data : JsValue) : Completion (list AlertSummary) :=
  alerts ← getProp data "alerts";
  if truthy alerts then
    len ← getProp alerts "length";
    n ← toNumber len;
    if js_gt n (ofZ 0) then
      callMap alerts (fun alert =>
        ev ← getProp alert "event";
        mret {| event := ev |})
    else mret []
  else mret [].

Definition mapToWeatherServiceData (data : JsValue)
  : Completion WeatherServiceData :=
  c ← mapCurrentCondition data;
  t ← mapTempDescription data;
  a ← mapAlerts data;
  mret {| current_condition := c;
          temperature_description := t;
          active_alerts := a |}.

Definition mapper : WeatherMapper.t :=
  {| WeatherMapper.mapToWeatherServiceData := mapToWeatherServiceData |}.

End OpenWeatherMapper.

(* ===================================================================== *)
(** ** Logging and effects *)
(* ===================================================================== *)

(** types/CoordinatesQuery.ts declares both parameters as strings, but the
    handler gets them from [req.query] by a cast that checks nothing: a
    parameter is what Express made of the query string, a string, a list
    (the parameter sent several times), an object ([lat[a]=1]), or
    [undefined] when it was not sent. *)
Record CoordinatesQuery : Type := {
  lat : JsValue;
  lon : JsValue
}.

(** What the sources hand to [ILogger.error] after the message. *)
Inductive LogMeta : Type :=
  | MetaError (error : JsError)
  | MetaNumber (x : option JsNumber)
  | MetaFetch (error : JsError) (lat lon : JsNumber).

(** utils/Logger.interface.ts: one entry per call of the logger. *)
Inductive LogEntry : Type :=
  | LogInfo (message : string)
  | LogHttp (ip : option string) (method url : string) (query : CoordinatesQuery)
  | LogWarn (message : string)
  | LogError (message : string) (meta : list LogMeta).

(** Code that logs and may throw: the log is threaded through, newest entry
    last, and is kept when an error is thrown. *)
Definition Eff (A : Type) : Type :=
  list LogEntry -> Completion A * list LogEntry.

Definition eff_ret {A} (a : A) : Eff A := fun log => (Normal a, log).

Definition eff_bind {A B} (m : Eff A) (f : A -> Eff B) : Eff B :=
  fun log =>
    match m log with
    | (Normal a, log') => f a log'
    | (Throw e, log') => (Throw e, log')
    end.

Definition eff_throw {A} (e : JsError) : Eff A := fun log => (Throw e, log).

Definition eff_lift {A} (c : Completion A) : Eff A := fun log => (c, log).

Definition eff_log (entry : LogEntry) : Eff unit :=
  fun log => (Normal tt, (log ++ [entry])%list).

(** [try { body } catch (error) { handler }] *)
Definition try_catch {A} (body : Eff A) (handler : JsError -> Eff A) : Eff A :=
  fun log =>
    match body log with
    | (Normal a, log') => (Normal a, log')
    | (Throw e, log') => handler e log'
    end.

Declare Scope eff_scope.
Delimit Scope eff_scope with eff.
Notation "x <- m ;; k" := (eff_bind m (fun x => k))
  (at level 20, m at level 99, k at level 200) : eff_scope.
Notation "m ;; k" := (eff_bind m (fun _ => k))
  (at level 100, k at level 200, right associativity) : eff_scope.

(* ===================================================================== *)
(** ** services/OpenWeatherService.ts *)
(* ===================================================================== *)

(** services/WeatherService.interface.ts *)
Module IWeatherService.
Record t (D : Type) : Type := {
  getWeatherByCoordinates : JsNumber -> JsNumber -> Eff D
}.
Arguments getWeatherByCoordinates {D} _ _ _.
End IWeatherService.

(** The part of an Axios response the service reads. *)
Record AxiosResponse : Type := { data : JsValue }.

(** The part of [AxiosInstance] the service calls: [get(url)] resolves with
    a response or rejects. *)
Module AxiosInstance.
Record t : Type := {
  get : string -> Completion AxiosResponse
}.
End AxiosInstance.

Module OpenWeatherService.

Record t : Type := {
  apiKey : string;
  baseUrl : string;
  httpClient : AxiosInstance.t;
  mapper : WeatherMapper.t
}.

Definition requestUrl (self : t) (lat lon : JsNumber) : string :=
  baseUrl self +:+ "?lat=" +:+ numberToString lat
    +:+ "&lon=" +:+ numberToString lon
    +:+ "&exclude=minutely,hourly,daily&units=imperial&appid=" +:+ apiKey self.

Definition getWeatherByCoordinates (self : t) (lat lon : JsNumber)
  : Eff WeatherServiceData :=
  try_catch
    (apiResponse <-
       eff_lift (AxiosInstance.get (httpClient self) (requestUrl self lat lon)) ;;
     weatherServiceResponse <-
       eff_lift (WeatherMapper.mapToWeatherServiceData (mapper self)
                   (data apiResponse)) ;;
     eff_ret weatherServiceResponse)%eff
    (fun error =>
       (eff_log (LogError "Error fetching weather data from OpenWeather API"
                          [MetaFetch error lat lon]) ;;
        eff_throw error)%eff).

Definition service (self : t) : IWeatherService.t WeatherServiceData :=
  {| IWeatherService.getWeatherByCoordinates := getWeatherByCoordinates self |}.

End OpenWeatherService.

(* ===================================================================== *)
(** ** routes/WeatherRoute.ts *)
(* ===================================================================== *)

Module WeatherRoute.

Module ERRORS.
Definition MISSING_COORDINATES := "Latitude and Longitude are required".
Definition INVALID_LATITUDE := "Latitude must be between -90 and 90".
Definition INVALID_LONGITUDE := "Longitude must be between -180 and 180".
Definition INVALID_COORDINATES := "Invalid coordinates provided".
Definition INVALID_COORDINATES_TYPE := "Coordinates must be numbers".
Definition FETCH_FAILED := "Failed to fetch weather data".
End ERRORS.

(** The part of the Express request the handler reads. *)
Record Request : Type := {
  ip : option string;
  url : string;
  query : CoordinatesQuery
}.

(** What [res.status(s).json(b)] sends. *)
Inductive Body (D : Type) : Type :=
  | ErrorBody (error : option string)
  | DataBody (d : D).
Arguments ErrorBody {D} error.
Arguments DataBody {D} d.

Record Response (D : Type) : Type := {
  status : Z;
  body : Body D
}.
Arguments status {D} _.
Arguments body {D} _.

Record ValidationResult : Type := {
  areValid : bool;
  latitude : option JsNumber;
  longitude : option JsNumber;
  errorMessage : option string
}.

Definition invalid (msg : string) : ValidationResult :=
  {| areValid := false; latitude := None; longitude := None;
     errorMessage := Some msg |}.

Definition areCoordinatesValid (lat lon : string) : ValidationResult :=
  let latitude := parseFloatStr lat in
  let longitude := parseFloatStr lon in
  if isNaN latitude || isNaN longitude then
    invalid ERRORS.INVALID_COORDINATES_TYPE
  else if js_lt latitude (ofZ (-90)) || js_gt latitude (ofZ 90) then
    invalid ERRORS.INVALID_LATITUDE
  else if js_lt longitude (ofZ (-180)) || js_gt longitude (ofZ 180) then
    invalid ERRORS.INVALID_LONGITUDE
  else
    {| areValid := true; latitude := Some latitude;
       longitude := Some longitude; errorMessage := None |}.

(** The call [this.areCoordinatesValid(lat, lon)] on the values of the
    query.  [parseFloat], the first thing done with either argument, turns
    it into a string, the latitude first; for an object of the query that
    can throw. *)
Definition callAreCoordinatesValid (lat lon : JsValue)
  : Completion ValidationResult :=
  latText ← toString lat;
  lonText ← toString lon;
  mret (areCoordinatesValid latText lonText).

Section Handler.
Context {D : Type} (weatherService : IWeatherService.t D).

Definition reply (s : Z) (b : Body D) : Eff (Response D) :=
  eff_ret {| status := s; body := b |}.

Definition getWeatherByCoordinates (req : Request) : Eff (Response D) :=
  (eff_log (LogHttp (ip req) "GET" (url req) (query req)) ;;
   let lat := lat (query req) in
   let lon := lon (query req) in
   if negb (truthy lat) || negb (truthy lon) then
     reply 400 (ErrorBody (Some ERRORS.MISSING_COORDINATES))
   else
     coordinateValidationResult <- eff_lift (callAreCoordinatesValid lat lon) ;;
     if negb (areValid coordinateValidationResult) then
       eff_log (LogError
                  (match errorMessage coordinateValidationResult with
                   | Some m => if String.eqb m "" then "Unknown validation error" else m
                   | None => "Unknown validation error"
                   end) []) ;;
       reply 400 (ErrorBody (errorMessage coordinateValidationResult))
     else
       let latitude := latitude coordinateValidationResult in
       let longitude := longitude coordinateValidationResult in
       try_catch
         (match latitude, longitude with
          | Some la, Some lo =>
              weatherData <-
                IWeatherService.getWeatherByCoordinates weatherService la lo ;;
              reply 200 (DataBody weatherData)
          | _, _ =>
              reply 400 (ErrorBody (Some ERRORS.INVALID_COORDINATES))
          end)
         (fun error =>
            eff_log (LogError ERRORS.FETCH_FAILED
                       [MetaError error; MetaNumber latitude;
                        MetaNumber longitude]) ;;
            reply 500 (ErrorBody (Some ERRORS.FETCH_FAILED))))%eff.
End Handler.

End WeatherRoute.

(* ===================================================================== *)
(** ** middleware/apiKeyValidator.ts *)
(* ===================================================================== *)

Module ApiKeyValidator.

(** [process.env] *)
Record Env : Type := {
  NODE_ENV : option string;
  WEATHER_SERVICE_API_KEY : option string
}.

(** What Express hands over for a header or a query parameter: a string,
    a list (a parameter sent several times) or a nested object
    ([?apikey[a]=b]). *)
#[warnings="-register-all"]
Inductive ParamValue : Type :=
  | PString (s : string)
  | PArray (items : list ParamValue)
  | PObject (fields : list (string * ParamValue)).

(** The part of the Express request the middleware reads; a header or
    parameter that was not sent is absent from its map ([undefined]). *)
Record Request : Type := {
  headers : gmap string ParamValue;
  query : gmap string ParamValue
}.

(** The middleware either hands over to the next handler or answers. *)
Inductive Outcome : Type :=
  | Next
  | Respond (status : Z) (error : string).

Definition truthyParam (v : option ParamValue) : bool :=
  match v with
  | None => false
  | Some (PString s) => negb (String.eqb s "")
  | Some _ => true
  end.

(** [a || b] *)
Definition js_or (a b : option ParamValue) : option ParamValue :=
  if truthyParam a then a else b.

(** [v !== process.env.X]: only a string can be identical to the string of
    the environment, only [undefined] to an unset variable. *)
Definition differsFromEnv (v : option ParamValue) (e : option string) : bool :=
  match v, e with
  | Some (PString s), Some s' => negb (String.eqb s s')
  | None, None => false
  | _, _ => true
  end.

Definition apiKeyValidator (env : Env) (req : Request) : Outcome :=
  if bool_decide (NODE_ENV env = Some "development") then Next
  else
    let apiKey := js_or (headers req !! "x-api-key") (query req !! "apikey") in
    if negb (truthyParam apiKey) then Respond 401 "Unauthorized"
    else if differsFromEnv apiKey (WEATHER_SERVICE_API_KEY env) then
      Respond 403 "Forbidden"
    else Next.

End ApiKeyValidator.

(* ===================================================================== *)
(** ** routes/InfoRoute.ts *)
(* ===================================================================== *)

Module InfoRoute.

(** The part of the Express request [getInfo] reads. *)
Record Request : Type := {
  ip : option string;
  url : string;
  query : JsValue
}.

(** The object [{ error, ip, url, query }] handed to [logger.error]. *)
Inductive ErrorContext : Type :=
  | Context (error : JsError) (ip : option string) (url : string)
            (query : JsValue).

(** The two logger methods [getInfo] calls.  Here the logger is whatever
    the route was built with: a call changes the logger's state and may
    throw. *)
Record Logger (S : Type) : Type := {
  http : option string -> string -> string -> JsValue -> S -> Completion unit * S;
  error : string -> ErrorContext -> S -> Completion unit * S
}.
Arguments http {S} _ _ _ _ _ _.
Arguments error {S} _ _ _ _.

Record Metadata : Type := {
  service : string;
  version : string;
  description : string
}.

Inductive Body : Type :=
  | InfoBody (info : Metadata)
  | ErrorBody (error : string).

Record Response : Type := {
  status : Z;
  body : Body
}.

Definition getInfo {S} (logger : Logger S) (req : Request) (s : S)
  : Completion Response * S :=
  match http logger (ip req) "GET" (url req) (query req) s with
  | (Normal _, s1) =>
      (Normal {| status := 200;
                 body := InfoBody
                   {| service := "WeatherService API";
                      version := "1.0.0";
                      description :=
                        "This API provides weather information based on coordinates." |} |},
       s1)
  | (Throw e, s1) =>
      match error logger "Error while processing request:"
                  (Context e (ip req) (url req) (query req)) s1 with
      | (Normal _, s2) =>
          (Normal {| status := 500; body := ErrorBody "Internal Server Error" |},
           s2)
      | (Throw e2, s2) => (Throw e2, s2)
      end
  end.

End InfoRoute.

(* ===================================================================== *)
(** ** index.ts *)
(* ===================================================================== *)

Module Startup.

(** [process.env] once [dotenv.config()] has run. *)
Record Env : Type := {
  PORT : option string;
  OPENWEATHER_API_KEY : option string;
  OPENWEATHER_BASE_URL : option string
}.

(** How the script ends: [process.exit(code)], or [app.listen(port)] with
    the routers mounted under their paths. *)
Inductive Outcome : Type :=
  | Exit (code : Z)
  | Listen (port : string) (mounts : list string).

(** [!v] for a variable of the environment: unset or empty. *)
Definition unset (v : option string) : bool :=
  match v with
  | None => true
  | Some s => String.eqb s ""
  end.

(** The constructor of [OpenWeatherService]: it stores its arguments and
    logs one line. *)
Definition newOpenWeatherService (apiKey baseUrl : string)
    (httpClient : AxiosInstance.t) (mapper : WeatherMapper.t)
  : Eff OpenWeatherService.t :=
  (eff_log (LogInfo "OpenWeatherService initialized with API key and base URL") ;;
   eff_ret {| OpenWeatherService.apiKey := apiKey;
              OpenWeatherService.baseUrl := baseUrl;
              OpenWeatherService.httpClient := httpClient;
              OpenWeatherService.mapper := mapper |})%eff.

Definition main (env : Env) (axios : AxiosInstance.t)
  : Outcome * list LogEntry :=
  match PORT env with
  | Some port =>
      if unset (Some port) then
        (Exit 1, [LogError "Port is not set. Please check your .env file." []])
      else
        let log1 := [LogInfo ("Server will run on port " +:+ port)] in
        match OPENWEATHER_API_KEY env, OPENWEATHER_BASE_URL env with
        | Some apiKey, Some baseUrl =>
            if unset (Some apiKey) || unset (Some baseUrl) then
              (Exit 1,
               log1 ++ [LogError "API key or base URL is not set. Please check your .env file." []])%list
            else
              let log2 := (log1 ++ [LogInfo "API key and base URL are set."])%list in
              let '(_, log3) :=
                newOpenWeatherService apiKey baseUrl axios OpenWeatherMapper.mapper log2 in
              (Listen port ["/api/v1/info"; "/api/v1/weather"], log3)
        | _, _ =>
            (Exit 1,
             log1 ++ [LogError "API key or base URL is not set. Please check your .env file." []])%list
        end
  | None =>
      (Exit 1, [LogError "Port is not set. Please check your .env file." []])
  end.

End Startup.

(* ===================================================================== *)
(** ** Vocabulary of the properties *)
(* ===================================================================== *)

(** Payloads that carry just the field under study. *)
Definition payloadWithFeelsLike (v : JsValue) : JsValue :=
  JObj [("current", JObj [("feels_like", v)])].

Definition payloadWithId (id : JsValue) : JsValue :=
  JObj [("current", JObj [("weather", JArr [JObj [("id", id)]])])].

Definition payloadWithAlerts (alerts : JsValue) : JsValue :=
  JObj [("alerts", alerts)].

(** A value that has properties: anything but [null] and [undefined]. *)
Definition hasProperties (v : JsValue) : Prop :=
  v <> JUndefined /\ v <> JNull.

(** A number outside, or inside, the closed range from [lo] to [hi]; the
    infinities are outside, NaN is neither. *)
Definition outsideRange (lo hi : Z) (x : JsNumber) : Prop :=
  match x with
  | Fin q => (q < inject_Z lo \/ inject_Z hi < q)%Q
  | PosInf | NegInf => True
  | NaN => False
  end.

Definition insideRange (lo hi : Z) (x : JsNumber) : Prop :=
  match x with
  | Fin q => (inject_Z lo <= q <= inject_Z hi)%Q
  | _ => False
  end.

(** The result of a successful validation. *)
Definition valid (latitude longitude : JsNumber) : WeatherRoute.ValidationResult :=
  {| WeatherRoute.areValid := true;
     WeatherRoute.latitude := Some latitude;
     WeatherRoute.longitude := Some longitude;
     WeatherRoute.errorMessage := None |}.

(** A header or parameter that carries no key: not sent, or sent empty. *)
Definition notPresented (v : option ApiKeyValidator.ParamValue) : Prop :=
  v = None \/ v = Some (ApiKeyValidator.PString "").

(** The key a request presents: the header's if there is one, else the
    query parameter's. *)
Definition presents (req : ApiKeyValidator.Request) (key : ApiKeyValidator.ParamValue) : Prop :=
  let header := ApiKeyValidator.headers req !! "x-api-key" in
  let param := ApiKeyValidator.query req !! "apikey" in
  (~ notPresented header /\ header = Some key) \/
  (notPresented header /\ ~ notPresented param /\ param = Some key).

Definition matchesSecret (env : ApiKeyValidator.Env) (key : ApiKeyValidator.ParamValue) : Prop :=
  exists secret, ApiKeyValidator.WEATHER_SERVICE_API_KEY env = Some secret /\
    key = ApiKeyValidator.PString secret.

Definition isDecimalDigit (c : ascii) : bool :=
  let n := Z.of_N (N_of_ascii c) in (48 <=? n) && (n <=? 57).

(** The characters a StrDecimalLiteral can be made of. *)
Definition literalChar (c : ascii) : bool :=
  isDecimalDigit c
  || existsb (Ascii.eqb c)
       ["."; "e"; "E"; "+"; "-"; "I"; "n"; "f"; "i"; "t"; "y"]%char.

Fixpoint allLiteral (s : string) : bool :=
  match s with
  | String c r => literalChar c && allLiteral r
  | EmptyString => true
  end.

(** A tail that cannot continue a number: empty, or starting with a
    character no literal contains. *)
Definition nonNumericTail (t : string) : Prop :=
  match t with
  | String c _ => literalChar c = false
  | EmptyString => True
  end.

(** The ten temperature labels, coldest first. *)
Definition temperatureLabels : list string :=
  ["Extremely Cold"; "Very Cold"; "Cold"; "Chilly"; "Cool"; "Mild"; "Warm";
   "Hot"; "Very Hot"; "Extremely Hot"].

(** Where a label stands in a list of labels. *)
Fixpoint indexOf (s : string) (l : list string) : option nat :=
  match l with
  | [] => None
  | x :: r => if String.eqb s x then Some O else S <$> indexOf s r
  end.

(** [null] or [undefined]. *)
Definition nullish (v : JsValue) : Prop :=
  v = JUndefined \/ v = JNull.

(** The four messages a 400 reply of the coordinates endpoint can carry. *)
Definition badRequestMessages : list string :=
  [ WeatherRoute.ERRORS.MISSING_COORDINATES;
    WeatherRoute.ERRORS.INVALID_COORDINATES_TYPE;
    WeatherRoute.ERRORS.INVALID_LATITUDE;
    WeatherRoute.ERRORS.INVALID_LONGITUDE ].

(** The entry the service logs when a fetch fails. *)
Definition fetchErrorEntry (error : JsError) (lat lon : JsNumber) : LogEntry :=
  LogError "Error fetching weather data from OpenWeather API"
           [MetaFetch error lat lon].

(** A variable of the environment that is set and not empty. *)
Definition isSet (v : option string) : Prop :=
  exists s, v = Some s /\ s <> "".

(* ===================================================================== *)
(** ** Properties *)
(* ===================================================================== *)

Import OpenWeatherMapper.

(** *** Comparisons against integer constants *)

Lemma js_le_Fin (q : Q) (z : Z) :
  js_le (Fin q) (ofZ z) = true <-> (q <= inject_Z z)%Q.
Proof. unfold js_le, ofZ. apply Qle_bool_iff. Qed.

Lemma js_le_Fin_false (q : Q) (z : Z) :
  js_le (Fin q) (ofZ z) = false <-> (inject_Z z < q)%Q.
Proof.
  rewrite <- not_true_iff_false, js_le_Fin. split.
  - apply Qnot_le_lt.
  - apply Qlt_not_le.
Qed.

Lemma js_lt_Fin (q : Q) (z : Z) :
  js_lt (Fin q) (ofZ z) = true <-> (q < inject_Z z)%Q.
Proof.
  unfold js_lt, ofZ. rewrite negb_true_iff, <- not_true_iff_false, Qle_bool_iff.
  split; [apply Qnot_le_lt | apply Qlt_not_le].
Qed.

Lemma js_gt_Fin (q : Q) (z : Z) :
  js_gt (Fin q) (ofZ z) = true <-> (inject_Z z < q)%Q.
Proof.
  unfold js_gt, js_lt, ofZ. rewrite negb_true_iff, <- not_true_iff_false, Qle_bool_iff.
  split; [apply Qnot_le_lt | apply Qlt_not_le].
Qed.

(** *** Temperature buckets *)



Lemma describeTemp_NaN : describeTemp NaN = "Unknown".
Proof. reflexivity. Qed.

Lemma describeTemp_infinite :
  describeTemp NegInf = "Extremely Cold" /\ describeTemp PosInf = "Extremely Hot".
Proof. split; reflexivity. Qed.

(** The nine thresholds, sent as numbers, land in the colder bucket. *)
Example boundaries_belong_to_lower_bucket :
  map (fun z => mapTempDescription (payloadWithFeelsLike (JNum (ofZ z))))
      [-4; 14; 32; 50; 59; 68; 77; 86; 95]
  = map Normal
      ["Extremely Cold"; "Very Cold"; "Cold"; "Chilly"; "Cool"; "Mild"; "Warm";
       "Hot"; "Very Hot"].
Proof. vm_compute. reflexivity. Qed.

(** Values that do not read as a number. *)
Example non_numeric_feels_like :
  map (fun v => mapTempDescription (payloadWithFeelsLike v))
      [JUndefined; JNull; JStr "invalid"; JStr ""; JBool true; JObj []; JArr [];
       JNum NaN]
  = map Normal (repeat "Unknown" 8).
Proof. vm_compute. reflexivity. Qed.



(** *** Condition codes *)

Lemma conditionMap_nonempty (z : Z) (s : string) :
  conditionMap !! z = Some s -> s <> "".
Proof.
  unfold conditionMap, conditionTable. intros H.
  apply elem_of_list_to_map_2 in H.
  repeat (apply elem_of_cons in H as [H | H];
          [injection H as -> ->; discriminate | ]).
  apply elem_of_nil in H. contradiction.
Qed.

Lemma conditionMapAt_ofZ (z : Z) : conditionMapAt (ofZ z) = conditionMap !! z.
Proof. unfold conditionMapAt, ofZ, inject_Z. cbn [Qden Qnum]. reflexivity. Qed.

Lemma describeCondition_ofZ (z : Z) :
  describeCondition (ofZ z) = default "Unknown" (conditionMap !! z).
Proof.
  unfold describeCondition. cbn [isNaN ofZ]. rewrite conditionMapAt_ofZ.
  destruct (conditionMap !! z) as [s | ] eqn:E; [ | reflexivity].
  apply conditionMap_nonempty in E. apply String.eqb_neq in E.
  rewrite E. reflexivity.
Qed.

(** Every entry of the table, sent as a numeric [id], gives its description. *)
Example every_table_code_is_described :
  Forall (fun entry =>
            mapCurrentCondition (payloadWithId (JNum (ofZ entry.1)))
            = Normal entry.2)
         conditionTable.
Proof.
  unfold conditionTable.
  repeat (constructor; [vm_compute; reflexivity | ]).
  constructor.
Qed.

Example absent_or_non_numeric_id :
  map (fun id => mapCurrentCondition (payloadWithId id))
      [JUndefined; JNull; JStr "invalid"; JStr ""; JNum (ofZ 999); JNum (ofZ 0);
       JNum NaN; JObj []]
  = map Normal (repeat "Unknown" 8).
Proof. vm_compute. reflexivity. Qed.

(** C4. [mapCurrentCondition] depends on the payload only through the parsed
    condition code, which it looks up in the fixed table: 800 is "Clear Sky",
    500 "Light Rain", 600 "Light Snow"; an absent [id], a code that is not a
    number, and a code without an entry all give "Unknown". *)
Theorem mapCurrentCondition_lookup :
  forall data current weather weatherData id conditionCode,
    getProp data "current" = Normal current ->
    getProp current "weather" = Normal weather ->
    getProp weather "0" = Normal weatherData ->
    getProp weatherData "id" = Normal id ->
    parseInt id = Normal conditionCode ->
    exists condition,
      mapCurrentCondition data = Normal condition /\
      condition = describeCondition conditionCode /\
      (forall z, conditionCode = ofZ z ->
                 condition = default "Unknown" (conditionMap !! z)) /\
      (forall z, conditionCode = ofZ z -> conditionMap !! z = None ->
                 condition = "Unknown") /\
      (conditionCode = NaN -> condition = "Unknown") /\
      (id = JUndefined -> condition = "Unknown") /\
      conditionMap !! 800 = Some "Clear Sky" /\
      conditionMap !! 500 = Some "Light Rain" /\
      conditionMap !! 600 = Some "Light Snow".
Proof.
  intros data current weather weatherData id code Hcur Hw H0 Hid Hcode.
  exists (describeCondition code). split; [ | split; [reflexivity | ]].
  - unfold mapCurrentCondition.
    rewrite Hcur; cbn. rewrite Hw; cbn. rewrite H0; cbn. rewrite Hid; cbn.
    rewrite Hcode. reflexivity.
  - repeat split.
    + intros z ->. apply describeCondition_ofZ.
    + intros z -> Hnone. rewrite describeCondition_ofZ, Hnone. reflexivity.
    + intros ->. reflexivity.
    + intros ->. cbn in Hcode. injection Hcode as <-. reflexivity.
Qed.

Lemma mapCurrentCondition_lookup_witness :
  mapCurrentCondition (payloadWithId (JNum (ofZ 800))) = Normal "Clear Sky".
Proof.
  assert (Hp : parseInt (JNum (ofZ 800)) = Normal (ofZ 800))
    by (vm_compute; reflexivity).
  destruct (mapCurrentCondition_lookup
              (payloadWithId (JNum (ofZ 800)))
              (JObj [("weather", JArr [JObj [("id", JNum (ofZ 800))]])])
              (JArr [JObj [("id", JNum (ofZ 800))]])
              (JObj [("id", JNum (ofZ 800))])
              (JNum (ofZ 800)) (ofZ 800)
              eq_refl eq_refl eq_refl eq_refl Hp)
    as [condition [Hrun [_ [Hz [_ [_ [_ [H800 _]]]]]]]].
  rewrite Hrun, (Hz 800 eq_refl), H800. reflexivity.
Defined.

(** *** Payloads the mapper cannot read *)

(** C1. The contract says [mapToWeatherServiceData] never raises and falls
    back to "Unknown" or to no alerts; the code raises a TypeError as soon as
    [current], [current.weather] or [current.weather[0]] is missing, and on
    an alerts list that holds [null] or is not an array. *)
Theorem mapToWeatherServiceData_raises_on_missing_current :
  mapToWeatherServiceData (JObj [])
    = Throw (TypeError "Cannot read properties of undefined (reading 'weather')") /\
  mapToWeatherServiceData
    (JObj [("current", JObj [("feels_like", JNum (ofZ 75))]); ("alerts", JArr [])])
    = Throw (TypeError "Cannot read properties of undefined (reading '0')") /\
  mapToWeatherServiceData
    (JObj [("current", JObj [("weather", JArr []); ("feels_like", JNum (ofZ 75))])])
    = Throw (TypeError "Cannot read properties of undefined (reading 'id')") /\
  mapToWeatherServiceData
    (JObj [("current", JObj [("weather", JArr [JObj [("id", JNum (ofZ 800))]]);
                             ("feels_like", JNum (ofZ 75))]);
           ("alerts", JArr [JNull])])
    = Throw (TypeError "Cannot read properties of null (reading 'event')").
Proof. repeat split; vm_compute; reflexivity. Qed.

(** The fallbacks the mapper does have: a missing [id], a missing
    [feels_like] and missing alerts degrade without an error. *)
Example mapToWeatherServiceData_degrades_on_missing_leaves :
  mapToWeatherServiceData
    (JObj [("current", JObj [("weather", JArr [JObj []])])])
  = Normal {| current_condition := "Unknown";
              temperature_description := "Unknown";
              active_alerts := [] |}.
Proof. vm_compute. reflexivity. Qed.

(** *** Alerts *)


Lemma getProp_returns (v : JsValue) (k : string) :
  hasProperties v -> exists w, getProp v k = Normal w.
Proof.
  intros [Hu Hn]. destruct v; try contradiction; cbn; eauto.
  - destruct (String.eqb k "length"); [eauto | ].
    destruct (arrayIndex k); eauto.
  - destruct (String.eqb k "length"); [eauto | ].
    destruct (arrayIndex k); eauto.
Qed.

Lemma mapM_event (elems : list JsValue) :
  Forall hasProperties elems ->
  exists out,
    mapM (fun alert => ev ← getProp alert "event"; mret {| event := ev |}) elems
      = Normal out /\
    Forall2 (fun alert o => getProp alert "event" = Normal (event o)) elems out.
Proof.
  induction 1 as [ | alert elems Halert _ [out [IH1 IH2]]].
  - exists []. split; [reflexivity | constructor].
  - destruct (getProp_returns alert "event" Halert) as [ev Hev].
    exists ({| event := ev |} :: out). split.
    + cbn. rewrite Hev. cbn. rewrite IH1. reflexivity.
    + constructor; assumption.
Qed.

Lemma getProp_length (elems : list JsValue) :
  getProp (JArr elems) "length" = Normal (JNum (ofZ (Z.of_nat (length elems)))).
Proof. reflexivity. Qed.

Lemma length_positive (elems : list JsValue) :
  elems <> [] -> js_gt (ofZ (Z.of_nat (length elems))) (ofZ 0) = true.
Proof.
  intros Hne. apply js_gt_Fin. unfold inject_Z, Qlt. cbn.
  destruct elems; [contradiction | cbn; lia].
Qed.

(** What the mapper does guarantee: once [current] and [current.weather[0]]
    are there and the two leaves can be read as strings, every payload with
    no alerts or with a list of alerts is mapped without an error. *)
Lemma mapToWeatherServiceData_returns_on_shaped_payload :
  forall data current weather weatherData id feels_like alerts sid sfl,
    getProp data "current" = Normal current ->
    getProp current "weather" = Normal weather ->
    getProp weather "0" = Normal weatherData ->
    getProp weatherData "id" = Normal id ->
    toString id = Normal sid ->
    getProp current "feels_like" = Normal feels_like ->
    toString feels_like = Normal sfl ->
    getProp data "alerts" = Normal alerts ->
    (alerts = JUndefined \/ alerts = JNull \/
     exists elems, alerts = JArr elems /\ Forall hasProperties elems) ->
    exists c t a,
      mapToWeatherServiceData data
      = Normal {| current_condition := c; temperature_description := t;
                  active_alerts := a |}.
Proof.
  intros data current weather weatherData id feels_like alerts sid sfl
         Hcur Hw H0 Hid Hsid Hfl Hsfl Hal Hshape.
  assert (Ha : exists a, mapAlerts data = Normal a).
  { unfold mapAlerts. rewrite Hal.
    destruct Hshape as [-> | [-> | (elems & -> & Hall)]];
      [exists []; reflexivity | exists []; reflexivity | ].
    cbn [mbind Completion_bind truthy]. rewrite getProp_length.
    cbn [mbind Completion_bind toNumber].
    destruct (js_gt _ _); [ | exists []; reflexivity].
    destruct (mapM_event elems Hall) as [out [Hrun _]].
    exists out. exact Hrun. }
  destruct Ha as [a Ha].
  exists (describeCondition (parseIntStr sid)), (describeTemp (parseFloatStr sfl)), a.
  unfold mapToWeatherServiceData, mapCurrentCondition, mapTempDescription,
    parseInt, parseFloat.
  rewrite Hcur; cbn [mbind Completion_bind]. rewrite Hw; cbn [mbind Completion_bind].
  rewrite H0; cbn [mbind Completion_bind]. rewrite Hid; cbn [mbind Completion_bind].
  rewrite Hsid; cbn [mbind Completion_bind fmap Completion_fmap mret Completion_ret].
  rewrite Hfl; cbn [mbind Completion_bind].
  rewrite Hsfl; cbn [mbind Completion_bind fmap Completion_fmap mret Completion_ret].
  rewrite Ha. reflexivity.
Qed.

(** What [mapAlerts] does as long as every alert of the list has
    properties: it turns a non-empty list into the list of its [event]
    fields, one [{event}] per alert and in the same order, and nothing else
    of an alert is kept; without alerts, or with an empty list, the result
    is the empty list. *)
Theorem mapAlerts_events :
  forall data alerts,
    getProp data "alerts" = Normal alerts ->
    (forall elems,
        alerts = JArr elems -> elems <> [] -> Forall hasProperties elems ->
        exists out,
          mapAlerts data = Normal out /\
          Forall2 (fun alert o => getProp alert "event" = Normal (event o))
                  elems out) /\
    (alerts = JUndefined \/ alerts = JNull \/ alerts = JArr [] ->
     mapAlerts data = Normal []).
Proof.
  intros data alerts Hget. split.
  - intros elems -> Hne Hall.
    destruct (mapM_event elems Hall) as [out [Hrun Hout]].
    exists out. split; [ | assumption].
    unfold mapAlerts. rewrite Hget.
    cbn [mbind Completion_bind truthy]. rewrite getProp_length.
    cbn [mbind Completion_bind toNumber].
    rewrite (length_positive elems Hne). exact Hrun.
  - unfold mapAlerts. rewrite Hget.
    intros [-> | [-> | ->]]; reflexivity.
Qed.

Lemma mapAlerts_events_witness :
  exists out,
    mapAlerts
      (payloadWithAlerts
         (JArr [JObj [("sender_name", JStr "NWS"); ("event", JStr "Heat Advisory")];
                JObj [("event", JStr "Flood Warning"); ("tags", JArr [])]]))
      = Normal out /\
    Forall2 (fun alert o => getProp alert "event" = Normal (event o))
      [JObj [("sender_name", JStr "NWS"); ("event", JStr "Heat Advisory")];
       JObj [("event", JStr "Flood Warning"); ("tags", JArr [])]]
      out.
Proof.
  refine (proj1 (mapAlerts_events
                   (payloadWithAlerts (JArr _)) (JArr _) eq_refl) _ eq_refl _ _).
  - discriminate.
  - repeat constructor; discriminate.
Defined.

Example mapAlerts_keeps_only_event :
  mapAlerts
    (payloadWithAlerts
       (JArr [JObj [("sender_name", JStr "NWS"); ("event", JStr "Heat Advisory")];
              JObj [("event", JStr "Flood Warning"); ("tags", JArr [])]]))
  = Normal [ {| event := JStr "Heat Advisory" |};
             {| event := JStr "Flood Warning" |} ].
Proof. reflexivity. Qed.

(** C5. [mapAlerts] is to give one [{event}] per element of every
    non-empty alerts list; on a list that holds [null] next to a proper
    alert the code reads [alert.event] without a guard, throws a TypeError
    and gives no alert at all, and with it the whole mapping is lost. *)
Theorem mapAlerts_raises_on_null_element :
  mapAlerts
    (payloadWithAlerts (JArr [JObj [("event", JStr "Heat Advisory")]; JNull]))
  = Throw (TypeError "Cannot read properties of null (reading 'event')") /\
  mapToWeatherServiceData
    (JObj [("current", JObj [("weather", JArr [JObj [("id", JNum (ofZ 800))]]);
                             ("feels_like", JNum (ofZ 75))]);
           ("alerts", JArr [JObj [("event", JStr "Heat Advisory")]; JNull])])
  = Throw (TypeError "Cannot read properties of null (reading 'event')").
Proof. split; vm_compute; reflexivity. Qed.

(** *** Coordinate validation *)

Import WeatherRoute.


Lemma range_check_true (lo hi : Z) (x : JsNumber) :
  outsideRange lo hi x -> js_lt x (ofZ lo) || js_gt x (ofZ hi) = true.
Proof.
  destruct x as [ | | | q]; cbn [outsideRange]; try reflexivity; try contradiction.
  intros [H | H]; apply orb_true_iff; [left | right].
  - apply js_lt_Fin; assumption.
  - apply js_gt_Fin; assumption.
Qed.

Lemma range_check_false (lo hi : Z) (x : JsNumber) :
  insideRange lo hi x -> js_lt x (ofZ lo) || js_gt x (ofZ hi) = false.
Proof.
  destruct x as [ | | | q]; cbn [insideRange]; try contradiction.
  intros [H1 H2]. apply orb_false_iff. split; apply not_true_iff_false.
  - rewrite js_lt_Fin. apply Qle_not_lt; assumption.
  - rewrite js_gt_Fin. apply Qle_not_lt; assumption.
Qed.

Lemma range_check_inside (lo hi : Z) (x : JsNumber) :
  isNaN x = false -> js_lt x (ofZ lo) || js_gt x (ofZ hi) = false ->
  insideRange lo hi x.
Proof.
  destruct x as [ | | | q]; cbn [insideRange isNaN]; try discriminate.
  intros _ H. apply orb_false_iff in H as [H1 H2].
  apply not_true_iff_false in H1, H2. rewrite js_lt_Fin in H1.
  rewrite js_gt_Fin in H2. split; apply Qnot_lt_le; assumption.
Qed.

(** C3. Whenever one of the two strings does not parse as a number,
    whichever it is and whatever the other one holds, [areCoordinatesValid]
    fails with "Coordinates must be numbers"; the range checks are not
    reached. *)
Theorem areCoordinatesValid_not_a_number :
  forall lat lon : string,
    parseFloatStr lat = NaN \/ parseFloatStr lon = NaN ->
    areCoordinatesValid lat lon = invalid "Coordinates must be numbers".
Proof.
  intros lat lon H. unfold areCoordinatesValid.
  destruct H as [H | H]; rewrite H; cbn [isNaN].
  - reflexivity.
  - rewrite orb_true_r. reflexivity.
Qed.

Lemma areCoordinatesValid_not_a_number_witness :
  areCoordinatesValid "100" "north" = invalid "Coordinates must be numbers" /\
  areCoordinatesValid "north" "-200" = invalid "Coordinates must be numbers".
Proof.
  split.
  - apply (areCoordinatesValid_not_a_number "100" "north").
    right. vm_compute. reflexivity.
  - apply (areCoordinatesValid_not_a_number "north" "-200").
    left. vm_compute. reflexivity.
Defined.

(** C6. For coordinates that parse as numbers: a latitude outside
    [-90, 90] fails with "Latitude must be between -90 and 90" whatever the
    longitude is, so the latitude is checked first; with the latitude in
    range, a longitude outside [-180, 180] fails with
    "Longitude must be between -180 and 180". *)
Theorem areCoordinatesValid_out_of_range :
  forall (lat lon : string) (latitude longitude : JsNumber),
    parseFloatStr lat = latitude ->
    parseFloatStr lon = longitude ->
    isNaN latitude = false ->
    isNaN longitude = false ->
    (outsideRange (-90) 90 latitude ->
     areCoordinatesValid lat lon = invalid "Latitude must be between -90 and 90") /\
    (insideRange (-90) 90 latitude ->
     outsideRange (-180) 180 longitude ->
     areCoordinatesValid lat lon = invalid "Longitude must be between -180 and 180").
Proof.
  intros lat lon latitude longitude Hlat Hlon Hn1 Hn2.
  unfold areCoordinatesValid. rewrite Hlat, Hlon, Hn1, Hn2. cbn [orb].
  split.
  - intros Hout. rewrite (range_check_true _ _ _ Hout). reflexivity.
  - intros Hin Hout. rewrite (range_check_false _ _ _ Hin).
    rewrite (range_check_true _ _ _ Hout). reflexivity.
Qed.

Lemma areCoordinatesValid_out_of_range_witness :
  areCoordinatesValid "100" "-200" = invalid "Latitude must be between -90 and 90" /\
  areCoordinatesValid "40.7128" "-200"
    = invalid "Longitude must be between -180 and 180".
Proof.
  split.
  - refine (proj1 (areCoordinatesValid_out_of_range
                     "100" "-200" (ofZ 100) (ofZ (-200)) _ _ eq_refl eq_refl) _).
    + vm_compute. reflexivity.
    + vm_compute. reflexivity.
    + right. reflexivity.
  - refine (proj2 (areCoordinatesValid_out_of_range
                     "40.7128" "-200" (parseFloatStr "40.7128") (ofZ (-200))
                     eq_refl _ _ eq_refl) _ _).
    + vm_compute. reflexivity.
    + vm_compute. reflexivity.
    + vm_compute. split; discriminate.
    + left. reflexivity.
Defined.

(** The four ways [areCoordinatesValid] can end. *)
Lemma areCoordinatesValid_cases (lat lon : string) :
  areCoordinatesValid lat lon = invalid ERRORS.INVALID_COORDINATES_TYPE \/
  areCoordinatesValid lat lon = invalid ERRORS.INVALID_LATITUDE \/
  areCoordinatesValid lat lon = invalid ERRORS.INVALID_LONGITUDE \/
  exists a b,
    parseFloatStr lat = Fin a /\ parseFloatStr lon = Fin b /\
    (-90 <= a <= 90)%Q /\ (-180 <= b <= 180)%Q /\
    areCoordinatesValid lat lon = valid (Fin a) (Fin b).
Proof.
  unfold areCoordinatesValid.
  destruct (isNaN (parseFloatStr lat) || isNaN (parseFloatStr lon)) eqn:Hnan;
    [left; reflexivity | ].
  apply orb_false_iff in Hnan as [Hn1 Hn2].
  destruct (js_lt (parseFloatStr lat) (ofZ (-90))
            || js_gt (parseFloatStr lat) (ofZ 90)) eqn:Hla;
    [right; left; reflexivity | ].
  destruct (js_lt (parseFloatStr lon) (ofZ (-180))
            || js_gt (parseFloatStr lon) (ofZ 180)) eqn:Hlo;
    [right; right; left; reflexivity | ].
  right; right; right.
  apply (range_check_inside _ _ _ Hn1) in Hla.
  apply (range_check_inside _ _ _ Hn2) in Hlo.
  destruct (parseFloatStr lat) as [ | | | a]; try contradiction.
  destruct (parseFloatStr lon) as [ | | | b]; try contradiction.
  exists a, b. repeat split; try reflexivity; apply Hla || apply Hlo.
Qed.

(** Validation as the handler calls it: it throws when a value of the query
    has no string, and is [areCoordinatesValid] on the two strings
    otherwise. *)
Lemma callAreCoordinatesValid_cases (lat lon : JsValue) :
  (exists e, callAreCoordinatesValid lat lon = Throw e /\
             (toString lat = Throw e \/
              exists la, toString lat = Normal la /\ toString lon = Throw e)) \/
  (exists la lo,
      toString lat = Normal la /\ toString lon = Normal lo /\
      callAreCoordinatesValid lat lon = Normal (areCoordinatesValid la lo)).
Proof.
  unfold callAreCoordinatesValid.
  destruct (toString lat) as [la | e]; [ | left; eauto].
  destruct (toString lon) as [lo | e]; [right; eauto | left; eauto 6].
Qed.

Lemma callAreCoordinatesValid_strings (la lo : string) :
  callAreCoordinatesValid (JStr la) (JStr lo) = Normal (areCoordinatesValid la lo).
Proof. reflexivity. Qed.

Lemma truthy_JStr (s : string) : s <> "" -> truthy (JStr s) = true.
Proof. intros H. apply String.eqb_neq in H. cbn. rewrite H. reflexivity. Qed.

(** What the handler does, case by case. *)
Section HandlerCases.
Context {D : Type} (weatherService : IWeatherService.t D).

Lemma handler_missing (req : Request) (log : list LogEntry) :
  negb (truthy (lat (query req))) || negb (truthy (lon (query req))) = true ->
  getWeatherByCoordinates weatherService req log
  = (Normal {| status := 400;
               body := ErrorBody (Some ERRORS.MISSING_COORDINATES) |},
     log ++ [LogHttp (ip req) "GET" (url req) (query req)])%list.
Proof.
  intros H. unfold getWeatherByCoordinates, eff_bind, eff_log, reply, eff_ret.
  rewrite H. reflexivity.
Qed.

Lemma handler_unreadable (req : Request) (log : list LogEntry) (e : JsError) :
  truthy (lat (query req)) = true -> truthy (lon (query req)) = true ->
  callAreCoordinatesValid (lat (query req)) (lon (query req)) = Throw e ->
  getWeatherByCoordinates weatherService req log
  = (Throw e, log ++ [LogHttp (ip req) "GET" (url req) (query req)])%list.
Proof.
  intros Ht1 Ht2 Hcall.
  unfold getWeatherByCoordinates, eff_bind, eff_log, eff_lift, reply, eff_ret.
  rewrite Ht1, Ht2, Hcall. reflexivity.
Qed.

Lemma handler_invalid_on (req : Request) (log : list LogEntry) (msg : string) :
  truthy (lat (query req)) = true -> truthy (lon (query req)) = true ->
  msg <> "" ->
  callAreCoordinatesValid (lat (query req)) (lon (query req))
    = Normal (invalid msg) ->
  getWeatherByCoordinates weatherService req log
  = (Normal {| status := 400; body := ErrorBody (Some msg) |},
     log ++ [LogHttp (ip req) "GET" (url req) (query req)]
         ++ [LogError msg []])%list.
Proof.
  intros Ht1 Ht2 Hm Hcall.
  unfold getWeatherByCoordinates, eff_bind, eff_log, eff_lift, reply, eff_ret.
  rewrite Ht1, Ht2, Hcall. cbn [negb orb invalid areValid errorMessage].
  apply String.eqb_neq in Hm. rewrite Hm.
  rewrite <- app_assoc. reflexivity.
Qed.

Lemma handler_valid_on (req : Request) (log : list LogEntry) (a b : JsNumber) :
  truthy (lat (query req)) = true -> truthy (lon (query req)) = true ->
  callAreCoordinatesValid (lat (query req)) (lon (query req))
    = Normal (valid a b) ->
  getWeatherByCoordinates weatherService req log
  = match IWeatherService.getWeatherByCoordinates weatherService a b
            (log ++ [LogHttp (ip req) "GET" (url req) (query req)])%list with
    | (Normal weatherData, log') =>
        (Normal {| status := 200; body := DataBody weatherData |}, log')
    | (Throw error, log') =>
        (Normal {| status := 500;
                   body := ErrorBody (Some ERRORS.FETCH_FAILED) |},
         log' ++ [LogError ERRORS.FETCH_FAILED
                    [MetaError error; MetaNumber (Some a);
                     MetaNumber (Some b)]])%list
    end.
Proof.
  intros Ht1 Ht2 Hcall.
  unfold getWeatherByCoordinates, eff_bind, eff_log, eff_lift, reply, eff_ret,
    try_catch.
  rewrite Ht1, Ht2, Hcall. cbn [negb orb valid areValid latitude longitude].
  destruct (IWeatherService.getWeatherByCoordinates weatherService a b _)
    as [[weatherData | error] log']; reflexivity.
Qed.

Lemma handler_invalid (req : Request) (log : list LogEntry)
      (la lo msg : string) :
  lat (query req) = JStr la -> lon (query req) = JStr lo ->
  la <> "" -> lo <> "" -> msg <> "" ->
  areCoordinatesValid la lo = invalid msg ->
  getWeatherByCoordinates weatherService req log
  = (Normal {| status := 400; body := ErrorBody (Some msg) |},
     log ++ [LogHttp (ip req) "GET" (url req) (query req)]
         ++ [LogError msg []])%list.
Proof.
  intros Hla Hlo Ha Ho Hm Hv.
  apply handler_invalid_on; rewrite ?Hla, ?Hlo;
    auto using truthy_JStr.
  rewrite callAreCoordinatesValid_strings, Hv. reflexivity.
Qed.

Lemma handler_valid (req : Request) (log : list LogEntry)
      (la lo : string) (a b : JsNumber) :
  lat (query req) = JStr la -> lon (query req) = JStr lo ->
  la <> "" -> lo <> "" ->
  areCoordinatesValid la lo = valid a b ->
  getWeatherByCoordinates weatherService req log
  = match IWeatherService.getWeatherByCoordinates weatherService a b
            (log ++ [LogHttp (ip req) "GET" (url req) (query req)])%list with
    | (Normal weatherData, log') =>
        (Normal {| status := 200; body := DataBody weatherData |}, log')
    | (Throw error, log') =>
        (Normal {| status := 500;
                   body := ErrorBody (Some ERRORS.FETCH_FAILED) |},
         log' ++ [LogError ERRORS.FETCH_FAILED
                    [MetaError error; MetaNumber (Some a);
                     MetaNumber (Some b)]])%list
    end.
Proof.
  intros Hla Hlo Ha Ho Hv.
  apply handler_valid_on; rewrite ?Hla, ?Hlo;
    auto using truthy_JStr.
  rewrite callAreCoordinatesValid_strings, Hv. reflexivity.
Qed.

(** Every run of the handler is one of these. *)
Lemma handler_cases (req : Request) (log : list LogEntry) :
  let log1 := (log ++ [LogHttp (ip req) "GET" (url req) (query req)])%list in
  (getWeatherByCoordinates weatherService req log
   = (Normal {| status := 400;
                body := ErrorBody (Some ERRORS.MISSING_COORDINATES) |}, log1)) \/
  (exists e,
      callAreCoordinatesValid (lat (query req)) (lon (query req)) = Throw e /\
      getWeatherByCoordinates weatherService req log = (Throw e, log1)) \/
  (exists la lo msg,
      toString (lat (query req)) = Normal la /\
      toString (lon (query req)) = Normal lo /\
      areCoordinatesValid la lo = invalid msg /\
      In msg [ERRORS.INVALID_COORDINATES_TYPE; ERRORS.INVALID_LATITUDE;
              ERRORS.INVALID_LONGITUDE] /\
      getWeatherByCoordinates weatherService req log
      = (Normal {| status := 400; body := ErrorBody (Some msg) |},
         log1 ++ [LogError msg []])%list) \/
  (exists la lo a b,
      toString (lat (query req)) = Normal la /\
      toString (lon (query req)) = Normal lo /\
      parseFloatStr la = Fin a /\ parseFloatStr lo = Fin b /\
      (-90 <= a <= 90)%Q /\ (-180 <= b <= 180)%Q /\
      getWeatherByCoordinates weatherService req log
      = match IWeatherService.getWeatherByCoordinates weatherService
                (Fin a) (Fin b) log1 with
        | (Normal weatherData, log') =>
            (Normal {| status := 200; body := DataBody weatherData |}, log')
        | (Throw error, log') =>
            (Normal {| status := 500;
                       body := ErrorBody (Some ERRORS.FETCH_FAILED) |},
             log' ++ [LogError ERRORS.FETCH_FAILED
                        [MetaError error; MetaNumber (Some (Fin a));
                         MetaNumber (Some (Fin b))]])%list
        end).
Proof.
  intros log1.
  destruct (negb (truthy (lat (query req))) || negb (truthy (lon (query req))))
    eqn:Hmiss.
  { left. apply handler_missing. exact Hmiss. }
  apply orb_false_iff in Hmiss as [Ht1 Ht2].
  apply negb_false_iff in Ht1, Ht2. right.
  destruct (callAreCoordinatesValid_cases (lat (query req)) (lon (query req)))
    as [(e & Hcall & _) | (la & lo & Hla & Hlo & Hcall)].
  { left. exists e. split; [exact Hcall | ].
    apply handler_unreadable; assumption. }
  right.
  destruct (areCoordinatesValid_cases la lo)
    as [E | [E | [E | (a & b & Ha & Hb & Hra & Hrb & E)]]].
  - left. exists la, lo, ERRORS.INVALID_COORDINATES_TYPE.
    repeat split; try assumption; [cbn; auto | ].
    unfold log1. rewrite <- app_assoc.
    apply handler_invalid_on; try assumption; [discriminate | ].
    rewrite Hcall, E. reflexivity.
  - left. exists la, lo, ERRORS.INVALID_LATITUDE.
    repeat split; try assumption; [cbn; auto | ].
    unfold log1. rewrite <- app_assoc.
    apply handler_invalid_on; try assumption; [discriminate | ].
    rewrite Hcall, E. reflexivity.
  - left. exists la, lo, ERRORS.INVALID_LONGITUDE.
    repeat split; try assumption; [cbn; auto | ].
    unfold log1. rewrite <- app_assoc.
    apply handler_invalid_on; try assumption; [discriminate | ].
    rewrite Hcall, E. reflexivity.
  - right. exists la, lo, a, b.
    repeat split; try assumption; try apply Hra; try apply Hrb.
    apply handler_valid_on; try assumption.
    rewrite Hcall, E. reflexivity.
Qed.

End HandlerCases.

(** C10. A successful validation always carries both numbers, and they are
    finite; so the handler's reply 400 "Invalid coordinates provided" is
    never sent: whatever the request and whatever the weather service
    does, a reply of the handler has another body. *)
Theorem invalid_coordinates_reply_unreachable :
  (forall lat lon : string,
      areValid (areCoordinatesValid lat lon) = true ->
      exists a b,
        latitude (areCoordinatesValid lat lon) = Some (Fin a) /\
        longitude (areCoordinatesValid lat lon) = Some (Fin b)) /\
  (forall (D : Type) (weatherService : IWeatherService.t D)
          (req : Request) (log : list LogEntry)
          (resp : Response D) (log' : list LogEntry),
      getWeatherByCoordinates weatherService req log = (Normal resp, log') ->
      body resp <> ErrorBody (Some "Invalid coordinates provided")).
Proof.
  split.
  - intros la lo Hv.
    destruct (areCoordinatesValid_cases la lo)
      as [E | [E | [E | (a & b & _ & _ & _ & _ & E)]]];
      rewrite E in *; try discriminate.
    exists a, b. split; reflexivity.
  - intros D svc req log resp log' Hrun.
    destruct (handler_cases svc req log)
      as [H | [(e & _ & H) | [(la & lo & msg & _ & _ & _ & Hin & H)
                             | (la & lo & a & b & _ & _ & _ & _ & _ & _ & H)]]];
      rewrite H in Hrun.
    + injection Hrun as <- _. discriminate.
    + discriminate Hrun.
    + injection Hrun as <- _. cbn [body].
      destruct Hin as [<- | [<- | [<- | []]]]; discriminate.
    + destruct (IWeatherService.getWeatherByCoordinates svc _ _ _)
        as [[weatherData | error] log''];
        injection Hrun as <- _; discriminate.
Qed.

Lemma invalid_coordinates_reply_unreachable_witness :
  (exists a b,
      latitude (areCoordinatesValid "40.7128" "-74.0060") = Some (Fin a) /\
      longitude (areCoordinatesValid "40.7128" "-74.0060") = Some (Fin b)) /\
  ErrorBody (Some "Latitude must be between -90 and 90")
  <> @ErrorBody string (Some "Invalid coordinates provided").
Proof.
  split.
  - apply (proj1 invalid_coordinates_reply_unreachable "40.7128" "-74.0060").
    vm_compute. reflexivity.
  - apply (proj2 invalid_coordinates_reply_unreachable string
             {| IWeatherService.getWeatherByCoordinates :=
                  fun _ _ => eff_ret "sunny" |}
             {| ip := None; url := "/coordinates?lat=100&lon=0";
                query := {| lat := JStr "100"; lon := JStr "0" |} |}
             []
             {| status := 400;
                body := ErrorBody (Some "Latitude must be between -90 and 90") |}
             [LogHttp None "GET" "/coordinates?lat=100&lon=0"
                      {| lat := JStr "100"; lon := JStr "0" |};
              LogError "Latitude must be between -90 and 90" []]).
    vm_compute. reflexivity.
Defined.

(** *** Provider failures *)

(** C7. With valid coordinates, when the outbound call rejects or the
    mapper throws, the handler answers 500 with the fixed message
    "Failed to fetch weather data"; the cause goes to the log, once from the
    service and once from the route, each time with the two coordinates, and
    the body sent is the same whatever the cause. *)
Theorem fetch_failure_gives_500 :
  forall (self : OpenWeatherService.t) (req : Request) (log : list LogEntry)
         (la lo : string) (a b : JsNumber) (error : JsError),
    lat (query req) = JStr la -> lon (query req) = JStr lo ->
    la <> "" -> lo <> "" ->
    areCoordinatesValid la lo = valid a b ->
    (AxiosInstance.get (OpenWeatherService.httpClient self)
                       (OpenWeatherService.requestUrl self a b) = Throw error
     \/ exists apiResponse,
          AxiosInstance.get (OpenWeatherService.httpClient self)
                            (OpenWeatherService.requestUrl self a b)
            = Normal apiResponse /\
          WeatherMapper.mapToWeatherServiceData
            (OpenWeatherService.mapper self) (data apiResponse) = Throw error) ->
    WeatherRoute.getWeatherByCoordinates (OpenWeatherService.service self) req log
    = (Normal {| status := 500;
                 body := ErrorBody (Some "Failed to fetch weather data") |},
       log ++ [ LogHttp (ip req) "GET" (url req) (query req);
                LogError "Error fetching weather data from OpenWeather API"
                         [MetaFetch error a b];
                LogError "Failed to fetch weather data"
                         [MetaError error; MetaNumber (Some a);
                          MetaNumber (Some b)] ])%list.
Proof.
  intros self req log la lo a b error Hla Hlo Ha Ho Hv Hfail.
  rewrite (handler_valid _ req log la lo a b Hla Hlo Ha Ho Hv).
  cbn [OpenWeatherService.service IWeatherService.getWeatherByCoordinates].
  unfold OpenWeatherService.getWeatherByCoordinates,
    try_catch, eff_bind, eff_lift, eff_log, eff_throw, eff_ret.
  destruct Hfail as [Hget | (apiResponse & Hget & Hmap)].
  - rewrite Hget. rewrite <- !app_assoc. reflexivity.
  - rewrite Hget, Hmap. rewrite <- !app_assoc. reflexivity.
Qed.

Lemma fetch_failure_gives_500_witness :
  let self :=
    {| OpenWeatherService.apiKey := "key";
       OpenWeatherService.baseUrl := "https://api.openweathermap.org/data/3.0/onecall";
       OpenWeatherService.httpClient :=
         {| AxiosInstance.get := fun _ => Throw (HostError "AxiosError" "timeout") |};
       OpenWeatherService.mapper := OpenWeatherMapper.mapper |} in
  let req :=
    {| ip := Some "127.0.0.1"; url := "/coordinates?lat=40.7128&lon=-74.0060";
       query := {| lat := JStr "40.7128"; lon := JStr "-74.0060" |} |} in
  fst (WeatherRoute.getWeatherByCoordinates (OpenWeatherService.service self) req [])
  = Normal {| status := 500;
              body := ErrorBody (Some "Failed to fetch weather data") |}.
Proof.
  intros self req.
  rewrite (fetch_failure_gives_500 self req [] "40.7128" "-74.0060"
             (parseFloatStr "40.7128") (parseFloatStr "-74.0060")
             (HostError "AxiosError" "timeout")).
  - reflexivity.
  - reflexivity.
  - reflexivity.
  - discriminate.
  - discriminate.
  - vm_compute. reflexivity.
  - left. reflexivity.
Defined.

(** A payload the mapper cannot read ends the same way. *)
Example unreadable_payload_gives_500 :
  let self :=
    {| OpenWeatherService.apiKey := "key";
       OpenWeatherService.baseUrl := "https://api.openweathermap.org/data/3.0/onecall";
       OpenWeatherService.httpClient :=
         {| AxiosInstance.get := fun _ => Normal {| data := JObj [] |} |};
       OpenWeatherService.mapper := OpenWeatherMapper.mapper |} in
  let req :=
    {| ip := None; url := "/coordinates";
       query := {| lat := JStr "40.7128"; lon := JStr "-74.0060" |} |} in
  fst (WeatherRoute.getWeatherByCoordinates (OpenWeatherService.service self) req [])
  = Normal {| status := 500;
              body := ErrorBody (Some "Failed to fetch weather data") |}.
Proof. vm_compute. reflexivity. Qed.

(** *** The API-key gate *)

Import ApiKeyValidator.


Lemma truthyParam_false (v : option ParamValue) :
  truthyParam v = false <-> notPresented v.
Proof.
  unfold notPresented. split.
  - intros H. destruct v as [[s | items | fields] | ]; cbn in H;
      try discriminate H; [ | auto].
    apply negb_false_iff, String.eqb_eq in H. subst s. auto.
  - intros [-> | ->]; reflexivity.
Qed.

Lemma truthyParam_true (v : option ParamValue) :
  truthyParam v = true <-> ~ notPresented v.
Proof.
  rewrite <- truthyParam_false. rewrite not_false_iff_true. reflexivity.
Qed.

Lemma differsFromEnv_false (env : Env) (key : ParamValue) :
  differsFromEnv (Some key) (WEATHER_SERVICE_API_KEY env) = false
  <-> matchesSecret env key.
Proof.
  unfold matchesSecret. split.
  - intros H.
    destruct key as [s | items | fields];
      destruct (WEATHER_SERVICE_API_KEY env) as [s' | ];
      cbn in H; try discriminate H.
    apply negb_false_iff, String.eqb_eq in H. subst s'. eauto.
  - intros (secret & -> & ->). cbn. rewrite String.eqb_refl. reflexivity.
Qed.

(** C8. Outside development mode: a request that presents no key, neither
    in the [x-api-key] header nor in the [apikey] query parameter, is
    answered 401; one that presents a key other than the configured secret
    is answered 403; one that presents the secret goes on to the handler.
    In development mode every request goes on, whatever it carries. *)
Theorem apiKeyValidator_gate :
  forall (env : Env) (req : ApiKeyValidator.Request),
    (NODE_ENV env = Some "development" -> apiKeyValidator env req = Next) /\
    (NODE_ENV env <> Some "development" ->
     (notPresented (headers req !! "x-api-key") ->
      notPresented (ApiKeyValidator.query req !! "apikey") ->
      apiKeyValidator env req = Respond 401 "Unauthorized") /\
     (forall key,
         presents req key ->
         (~ matchesSecret env key ->
          apiKeyValidator env req = Respond 403 "Forbidden") /\
         (matchesSecret env key -> apiKeyValidator env req = Next))).
Proof.
  intros env req. unfold apiKeyValidator. split.
  - intros Hdev. rewrite bool_decide_eq_true_2 by assumption. reflexivity.
  - intros Hprod. rewrite bool_decide_eq_false_2 by assumption. split.
    + intros Hh Hq. apply truthyParam_false in Hh, Hq.
      unfold js_or. rewrite Hh, Hq. reflexivity.
    + intros key Hkey.
      assert (Hor : js_or (headers req !! "x-api-key")
                          (ApiKeyValidator.query req !! "apikey") = Some key
                    /\ truthyParam (Some key) = true).
      { unfold js_or. destruct Hkey as [[Hh Heq] | (Hh & Hq & Heq)].
        - apply truthyParam_true in Hh. rewrite Hh. rewrite <- Heq. auto.
        - apply truthyParam_false in Hh. apply truthyParam_true in Hq.
          rewrite Hh. rewrite <- Heq. auto. }
      destruct Hor as [-> ->]. cbn [negb]. split.
      * intros Hno.
        destruct (differsFromEnv (Some key) (WEATHER_SERVICE_API_KEY env)) eqn:E;
          [reflexivity | ].
        apply differsFromEnv_false in E. contradiction.
      * intros Hyes. apply differsFromEnv_false in Hyes. rewrite Hyes.
        reflexivity.
Qed.

Lemma apiKeyValidator_gate_witness :
  let env := {| NODE_ENV := Some "production";
                WEATHER_SERVICE_API_KEY := Some "s3cret" |} in
  apiKeyValidator env {| headers := ∅; ApiKeyValidator.query := ∅ |}
    = Respond 401 "Unauthorized" /\
  apiKeyValidator env {| headers := {["x-api-key" := PString "guess"]};
                         ApiKeyValidator.query := ∅ |}
    = Respond 403 "Forbidden" /\
  apiKeyValidator env {| headers := ∅;
                         ApiKeyValidator.query := {["apikey" := PString "s3cret"]} |}
    = Next /\
  apiKeyValidator {| NODE_ENV := Some "development";
                     WEATHER_SERVICE_API_KEY := Some "s3cret" |}
                  {| headers := ∅; ApiKeyValidator.query := ∅ |}
    = Next.
Proof.
  intros env. split; [ | split; [ | split]].
  - refine (proj1 (proj2 (apiKeyValidator_gate env _) _) _ _);
      [discriminate | left; reflexivity | left; reflexivity].
  - refine (proj1 (proj2 (proj2 (apiKeyValidator_gate env _) _)
                     (PString "guess") _) _).
    + discriminate.
    + left. split; [ | reflexivity].
      intros [H | H]; discriminate H.
    + intros (secret & Hs & Hk). injection Hs as <-. discriminate Hk.
  - refine (proj2 (proj2 (proj2 (apiKeyValidator_gate env _) _)
                     (PString "s3cret") _) _).
    + discriminate.
    + right. split; [left; reflexivity | split; [ | reflexivity]].
      intros [H | H]; discriminate H.
    + exists "s3cret". split; reflexivity.
  - apply (proj1 (apiKeyValidator_gate _ _)). reflexivity.
Defined.

(** *** Characters after the number *)


Lemma append_nil (t : string) : "" +:+ t = t.
Proof. reflexivity. Qed.

Lemma append_cons (c : ascii) (s t : string) :
  String c s +:+ t = String c (s +:+ t).
Proof. reflexivity. Qed.

Ltac norm_append := rewrite ?append_nil, ?append_cons.

Lemma digitIn_10_digit (c : ascii) :
  isDecimalDigit c = false -> digitIn 10 c = None.
Proof.
  unfold isDecimalDigit, digitIn, digitOf. intros H. rewrite H.
  set (n := Z.of_N (N_of_ascii c)) in *.
  destruct ((97 <=? n) && (n <=? 122)) eqn:E1.
  - apply andb_true_iff in E1 as [E1 _]. apply Z.leb_le in E1.
    destruct (n - 87 <? 10) eqn:E; [apply Z.ltb_lt in E; lia | reflexivity].
  - destruct ((65 <=? n) && (n <=? 90)) eqn:E2; [ | reflexivity].
    apply andb_true_iff in E2 as [E2 _]. apply Z.leb_le in E2.
    destruct (n - 55 <? 10) eqn:E; [apply Z.ltb_lt in E; lia | reflexivity].
Qed.

Lemma literalChar_false (c : ascii) :
  literalChar c = false ->
  isDecimalDigit c = false /\
  Ascii.eqb c "." = false /\ Ascii.eqb c "e" = false /\
  Ascii.eqb c "E" = false /\ Ascii.eqb c "+" = false /\
  Ascii.eqb c "-" = false.
Proof.
  unfold literalChar. cbn [existsb]. intros H.
  repeat (apply orb_false_iff in H as [? H]). auto 10.
Qed.

Lemma literalChar_neq (a c : ascii) :
  literalChar a = true -> literalChar c = false -> Ascii.eqb a c = false.
Proof.
  intros Ha Hc. apply Ascii.eqb_neq. intros <-. congruence.
Qed.

Lemma trimStart_app (s t : string) :
  trimStart s <> "" -> trimStart (s +:+ t) = trimStart s +:+ t.
Proof.
  induction s as [ | c s IH]; [contradiction | ].
  norm_append. cbn [trimStart].
  destruct (isWhiteSpace c); [exact IH | reflexivity].
Qed.

Lemma scanSign_app (s t : string) :
  nonNumericTail t ->
  scanSign (s +:+ t) = ((scanSign s).1, (scanSign s).2 +:+ t).
Proof.
  intros Ht. destruct s as [ | c s]; norm_append.
  - destruct t as [ | c t]; [reflexivity | ].
    apply literalChar_false in Ht as (_ & _ & _ & _ & Hp & Hm).
    cbn. rewrite Hp, Hm. reflexivity.
  - cbn [scanSign]. destruct (Ascii.eqb c "+"); [reflexivity | ].
    destruct (Ascii.eqb c "-"); reflexivity.
Qed.

Lemma stripPrefix_app (p s t : string) :
  allLiteral p = true -> nonNumericTail t ->
  stripPrefix p (s +:+ t) = (fun r => r +:+ t) <$> stripPrefix p s.
Proof.
  intros Hp Ht. revert s. induction p as [ | a p IH]; intros s; [reflexivity | ].
  cbn in Hp. apply andb_true_iff in Hp as [Ha Hp].
  destruct s as [ | b s]; norm_append; cbn [stripPrefix].
  - destruct t as [ | c t]; [reflexivity | ].
    cbn in Ht. rewrite (literalChar_neq a c Ha Ht). reflexivity.
  - destruct (Ascii.eqb a b); [apply IH; assumption | reflexivity].
Qed.

Lemma scanDigits_app (s t : string) (acc : Z) (cnt : nat) :
  nonNumericTail t ->
  scanDigits (s +:+ t) acc cnt
  = ((scanDigits s acc cnt).1.1, (scanDigits s acc cnt).1.2,
     (scanDigits s acc cnt).2 +:+ t).
Proof.
  intros Ht. unfold scanDigits. revert acc cnt.
  induction s as [ | c s IH]; intros acc cnt; norm_append.
  - destruct t as [ | c t]; [reflexivity | ].
    apply literalChar_false in Ht as (Hd & _).
    cbn. rewrite (digitIn_10_digit c Hd). reflexivity.
  - cbn [scanRadix]. destruct (digitIn 10 c); [apply IH | reflexivity].
Qed.

Lemma scanExponent_app (s t : string) :
  nonNumericTail t ->
  scanExponent (s +:+ t) = ((scanExponent s).1, (scanExponent s).2 +:+ t).
Proof.
  intros Ht. destruct s as [ | c s]; norm_append.
  - destruct t as [ | c t]; [reflexivity | ].
    pose proof (literalChar_false c Ht) as (_ & _ & He & HE & _).
    cbn. rewrite He, HE. reflexivity.
  - cbn [scanExponent].
    destruct (Ascii.eqb c "e" || Ascii.eqb c "E"); [ | reflexivity].
    rewrite (scanSign_app s t Ht). destruct (scanSign s) as [neg r1].
    cbn [fst snd]. rewrite (scanDigits_app r1 t 0 0 Ht).
    destruct (scanDigits r1 0 0) as [[v n] r2]. cbn [fst snd].
    destruct n; reflexivity.
Qed.

Lemma scanUnsignedDecimal_app (s t : string) :
  nonNumericTail t ->
  scanUnsignedDecimal (s +:+ t)
  = (fun lr => (lr.1, lr.2 +:+ t)) <$> scanUnsignedDecimal s.
Proof.
  intros Ht. unfold scanUnsignedDecimal.
  rewrite (stripPrefix_app "Infinity" s t eq_refl Ht).
  destruct (stripPrefix "Infinity" s) as [rest | ]; [reflexivity | ].
  cbn [fmap option_fmap option_map].
  rewrite (scanDigits_app s t 0 0 Ht).
  destruct (scanDigits s 0 0) as [[ip ni] r1]. cbn [fst snd].
  assert (Hint :
    match ni with
    | O => None
    | S _ => let '(e, r4) := scanExponent (r1 +:+ t) in Some (LitDecimal ip e, r4)
    end
    = (fun lr => (lr.1, lr.2 +:+ t)) <$>
      match ni with
      | O => None
      | S _ => let '(e, r4) := scanExponent r1 in Some (LitDecimal ip e, r4)
      end).
  { destruct ni; [reflexivity | ].
    rewrite (scanExponent_app r1 t Ht).
    destruct (scanExponent r1) as [e r4]. reflexivity. }
  destruct r1 as [ | c r2]; norm_append.
  - destruct t as [ | c t].
    + exact Hint.
    + pose proof (literalChar_false c Ht) as (_ & Hdot & _).
      rewrite Hdot. exact Hint.
  - destruct (Ascii.eqb c ".").
    + rewrite (scanDigits_app r2 t ip 0 Ht).
      destruct (scanDigits r2 ip 0) as [[m nf] r3]. cbn [fst snd].
      destruct ni, nf; try reflexivity;
        rewrite (scanExponent_app r3 t Ht);
        destruct (scanExponent r3) as [e r4]; reflexivity.
    + exact Hint.
Qed.

Lemma scanStrDecimalLiteral_app (s t : string) :
  nonNumericTail t ->
  scanStrDecimalLiteral (s +:+ t)
  = (fun vr => (vr.1, vr.2 +:+ t)) <$> scanStrDecimalLiteral s.
Proof.
  intros Ht. unfold scanStrDecimalLiteral.
  rewrite (scanSign_app s t Ht). destruct (scanSign s) as [neg r].
  cbn [fst snd]. rewrite (scanUnsignedDecimal_app r t Ht).
  destruct (scanUnsignedDecimal r) as [[l rest] | ]; reflexivity.
Qed.

(** Whatever cannot continue the number is ignored by [parseFloat]. *)
Lemma parseFloatStr_app (s t : string) :
  nonNumericTail t -> parseFloatStr s <> NaN ->
  parseFloatStr (s +:+ t) = parseFloatStr s.
Proof.
  intros Ht Hs. unfold parseFloatStr in *.
  assert (Hne : trimStart s <> "").
  { intros E. rewrite E in Hs. apply Hs. reflexivity. }
  rewrite (trimStart_app s t Hne), (scanStrDecimalLiteral_app _ t Ht).
  destruct (scanStrDecimalLiteral (trimStart s)) as [[v r] | ]; reflexivity.
Qed.

(** C9. Validation reads its inputs the way [parseFloat] does: when the
    numeric prefixes of the two strings give a latitude in [-90, 90] and a
    longitude in [-180, 180], the coordinates are accepted with exactly
    those numbers, also when the strings go on with characters that are no
    part of a number (["40.7abc"] is accepted as 40.7). *)
Theorem areCoordinatesValid_accepts_numeric_prefix :
  forall (lat lon latTail lonTail : string) (a b : Q),
    parseFloatStr lat = Fin a ->
    parseFloatStr lon = Fin b ->
    (-90 <= a <= 90)%Q ->
    (-180 <= b <= 180)%Q ->
    nonNumericTail latTail ->
    nonNumericTail lonTail ->
    areCoordinatesValid (lat +:+ latTail) (lon +:+ lonTail)
    = valid (Fin a) (Fin b).
Proof.
  intros lat lon latTail lonTail a b Hlat Hlon Ha Hb Htl Htn.
  unfold areCoordinatesValid.
  rewrite (parseFloatStr_app lat latTail Htl) by (rewrite Hlat; discriminate).
  rewrite (parseFloatStr_app lon lonTail Htn) by (rewrite Hlon; discriminate).
  rewrite Hlat, Hlon. cbn [isNaN orb].
  rewrite (range_check_false (-90) 90 (Fin a)) by exact Ha.
  rewrite (range_check_false (-180) 180 (Fin b)) by exact Hb.
  reflexivity.
Qed.

Lemma areCoordinatesValid_accepts_numeric_prefix_witness :
  areCoordinatesValid "40.7abc" "-74.0060 W"
  = valid (Fin (2864007888030925 # 70368744177664))
          (Fin (-2603854640806101 # 35184372088832)).
Proof.
  apply (areCoordinatesValid_accepts_numeric_prefix
           "40.7" "-74.0060" "abc" " W").
  - vm_compute. reflexivity.
  - vm_compute. reflexivity.
  - split; discriminate.
  - split; discriminate.
  - reflexivity.
  - reflexivity.
Defined.

Example parseFloat_reads_the_numeric_prefix :
  parseFloatStr "40.7abc" = parseFloatStr "40.7" /\
  areCoordinatesValid "40.7abc" "-74.0060"
  = areCoordinatesValid "40.7" "-74.0060".
Proof. split; vm_compute; reflexivity. Qed.

(* ===================================================================== *)
(** ** Further properties of the route and the service *)
(* ===================================================================== *)

Import WeatherRoute.

(** X1. [areCoordinatesValid] accepts exactly the pairs of strings whose
    numeric prefixes are finite numbers with the latitude in [-90, 90] and
    the longitude in [-180, 180], bounds included; what it returns then are
    those two numbers, and no message. *)
Theorem areCoordinatesValid_accepts_iff :
  forall lat lon : string,
    (areValid (areCoordinatesValid lat lon) = true <->
     exists a b,
       parseFloatStr lat = Fin a /\ parseFloatStr lon = Fin b /\
       (-90 <= a <= 90)%Q /\ (-180 <= b <= 180)%Q) /\
    (forall a b,
        parseFloatStr lat = Fin a -> parseFloatStr lon = Fin b ->
        (-90 <= a <= 90)%Q -> (-180 <= b <= 180)%Q ->
        areCoordinatesValid lat lon = valid (Fin a) (Fin b)).
Proof.
  intros la lo.
  assert (Hgo : forall a b,
             parseFloatStr la = Fin a -> parseFloatStr lo = Fin b ->
             (-90 <= a <= 90)%Q -> (-180 <= b <= 180)%Q ->
             areCoordinatesValid la lo = valid (Fin a) (Fin b)).
  { intros a b Ha Hb Hra Hrb. unfold areCoordinatesValid.
    rewrite Ha, Hb. cbn [isNaN orb].
    rewrite (range_check_false (-90) 90 (Fin a)) by exact Hra.
    rewrite (range_check_false (-180) 180 (Fin b)) by exact Hrb.
    reflexivity. }
  split; [split | exact Hgo].
  - intros Hv.
    destruct (areCoordinatesValid_cases la lo)
      as [E | [E | [E | (a & b & Ha & Hb & Hra & Hrb & E)]]];
      try (rewrite E in Hv; discriminate Hv).
    exists a, b. auto.
  - intros (a & b & Ha & Hb & Hra & Hrb).
    rewrite (Hgo a b Ha Hb Hra Hrb). reflexivity.
Qed.

Lemma areCoordinatesValid_accepts_iff_witness :
  areCoordinatesValid "90" "-180" = valid (ofZ 90) (ofZ (-180)) /\
  areValid (areCoordinatesValid "90.5" "0") <> true.
Proof.
  split.
  - apply (proj2 (areCoordinatesValid_accepts_iff "90" "-180") 90%Q (-180)%Q).
    + vm_compute. reflexivity.
    + vm_compute. reflexivity.
    + split; discriminate.
    + split; discriminate.
  - intros H.
    apply (proj1 (areCoordinatesValid_accepts_iff "90.5" "0")) in H
      as (a & b & Ha & _ & [_ Hle] & _).
    vm_compute in Ha. injection Ha as <-. apply Hle. reflexivity.
Defined.

Lemma trimStart_whitespace (w s : string) :
  allWhiteSpace w = true -> trimStart (w +:+ s) = trimStart s.
Proof.
  induction w as [ | c w IH]; intros Hw; norm_append; [reflexivity | ].
  cbn in Hw. apply andb_true_iff in Hw as [Hc Hw].
  cbn [trimStart]. rewrite Hc. apply IH. exact Hw.
Qed.

(** X2. White space in front of a coordinate does not matter: padding
    either string with spaces, tabs or line breaks gives the same
    validation result. *)
Theorem areCoordinatesValid_ignores_leading_whitespace :
  forall padLat padLon lat lon : string,
    allWhiteSpace padLat = true ->
    allWhiteSpace padLon = true ->
    areCoordinatesValid (padLat +:+ lat) (padLon +:+ lon)
    = areCoordinatesValid lat lon.
Proof.
  intros wl wn la lo Hl Hn. unfold areCoordinatesValid, parseFloatStr.
  rewrite (trimStart_whitespace wl la Hl), (trimStart_whitespace wn lo Hn).
  reflexivity.
Qed.

Lemma areCoordinatesValid_ignores_leading_whitespace_witness :
  areCoordinatesValid "  40.7128" (String "009" "-74.0060")
  = areCoordinatesValid "40.7128" "-74.0060".
Proof.
  apply (areCoordinatesValid_ignores_leading_whitespace
           "  " (String "009" "") "40.7128" "-74.0060"); reflexivity.
Defined.

(** X3. A request without [lat] or without [lon], or with one of them
    empty, is answered 400 "Latitude and Longitude are required"; nothing
    is validated, the weather service is not asked and no error is logged:
    the log only gains the line of the request. *)
Theorem handler_rejects_missing_coordinates :
  forall (D : Type) (weatherService : IWeatherService.t D)
         (req : Request) (log : list LogEntry),
    lat (query req) = JUndefined \/ lat (query req) = JStr "" \/
    lon (query req) = JUndefined \/ lon (query req) = JStr "" ->
    WeatherRoute.getWeatherByCoordinates weatherService req log
    = (Normal {| status := 400;
                 body := ErrorBody (Some "Latitude and Longitude are required") |},
       log ++ [LogHttp (ip req) "GET" (url req) (query req)])%list.
Proof.
  intros D svc req log H. apply handler_missing.
  destruct H as [H | [H | [H | H]]]; rewrite H; cbn [truthy negb String.eqb orb];
    try reflexivity; apply orb_true_r.
Qed.

Lemma handler_rejects_missing_coordinates_witness :
  fst (WeatherRoute.getWeatherByCoordinates
         {| IWeatherService.getWeatherByCoordinates :=
              fun _ _ => eff_ret "sunny" |}
         {| ip := None; url := "/coordinates?lat=40.7128";
            query := {| lat := JStr "40.7128"; lon := JUndefined |} |} [])
  = Normal {| status := 400;
              body := ErrorBody (Some "Latitude and Longitude are required") |}.
Proof.
  rewrite (handler_rejects_missing_coordinates string _ _ []).
  - reflexivity.
  - right. right. left. reflexivity.
Defined.

(** X4. The weather service is only ever asked about validated
    coordinates: two services that agree on every finite latitude in
    [-90, 90] with every finite longitude in [-180, 180] make the handler
    behave the same on every request. *)
Theorem handler_asks_service_only_in_range :
  forall (D : Type) (service1 service2 : IWeatherService.t D),
    (forall (a b : Q) (log : list LogEntry),
        (-90 <= a <= 90)%Q -> (-180 <= b <= 180)%Q ->
        IWeatherService.getWeatherByCoordinates service1 (Fin a) (Fin b) log
        = IWeatherService.getWeatherByCoordinates service2 (Fin a) (Fin b) log) ->
    forall (req : Request) (log : list LogEntry),
      WeatherRoute.getWeatherByCoordinates service1 req log
      = WeatherRoute.getWeatherByCoordinates service2 req log.
Proof.
  intros D s1 s2 Hagree req log.
  destruct (negb (truthy (lat (query req))) || negb (truthy (lon (query req))))
    eqn:Hmiss.
  { rewrite (handler_missing s1 req log Hmiss), (handler_missing s2 req log Hmiss).
    reflexivity. }
  apply orb_false_iff in Hmiss as [Ht1 Ht2].
  apply negb_false_iff in Ht1, Ht2.
  destruct (callAreCoordinatesValid_cases (lat (query req)) (lon (query req)))
    as [(e & Hcall & _) | (la & lo & _ & _ & Hcall)].
  { rewrite (handler_unreadable s1 req log e Ht1 Ht2 Hcall),
            (handler_unreadable s2 req log e Ht1 Ht2 Hcall).
    reflexivity. }
  destruct (areCoordinatesValid_cases la lo)
    as [E | [E | [E | (a & b & _ & _ & Hra & Hrb & E)]]];
    rewrite E in Hcall.
  - rewrite (handler_invalid_on s1 req log ERRORS.INVALID_COORDINATES_TYPE
               Ht1 Ht2 ltac:(discriminate) Hcall),
            (handler_invalid_on s2 req log ERRORS.INVALID_COORDINATES_TYPE
               Ht1 Ht2 ltac:(discriminate) Hcall).
    reflexivity.
  - rewrite (handler_invalid_on s1 req log ERRORS.INVALID_LATITUDE
               Ht1 Ht2 ltac:(discriminate) Hcall),
            (handler_invalid_on s2 req log ERRORS.INVALID_LATITUDE
               Ht1 Ht2 ltac:(discriminate) Hcall).
    reflexivity.
  - rewrite (handler_invalid_on s1 req log ERRORS.INVALID_LONGITUDE
               Ht1 Ht2 ltac:(discriminate) Hcall),
            (handler_invalid_on s2 req log ERRORS.INVALID_LONGITUDE
               Ht1 Ht2 ltac:(discriminate) Hcall).
    reflexivity.
  - rewrite (handler_valid_on s1 req log _ _ Ht1 Ht2 Hcall),
            (handler_valid_on s2 req log _ _ Ht1 Ht2 Hcall).
    rewrite (Hagree a b _ Hra Hrb). reflexivity.
Qed.

Lemma handler_asks_service_only_in_range_witness :
  let inRange x lo hi := js_le (ofZ lo) x && js_le x (ofZ hi) in
  let answering : IWeatherService.t string :=
    {| IWeatherService.getWeatherByCoordinates :=
         fun _ _ => eff_ret "sunny" |} in
  let guarded : IWeatherService.t string :=
    {| IWeatherService.getWeatherByCoordinates :=
         fun a b =>
           if inRange a (-90) 90 && inRange b (-180) 180 then eff_ret "sunny"
           else eff_throw (HostError "RangeError" "never asked") |} in
  let req :=
    {| ip := None; url := "/coordinates?lat=95&lon=10";
       query := {| lat := JStr "95"; lon := JStr "10" |} |} in
  WeatherRoute.getWeatherByCoordinates answering req []
  = WeatherRoute.getWeatherByCoordinates guarded req [].
Proof.
  intros inRange answering guarded req.
  apply (handler_asks_service_only_in_range string answering guarded).
  intros a b log [Ha1 Ha2] [Hb1 Hb2].
  cbn [answering guarded IWeatherService.getWeatherByCoordinates].
  unfold inRange, js_le, ofZ.
  apply Qle_bool_iff in Ha1, Ha2, Hb1, Hb2.
  unfold inject_Z. rewrite Ha1, Ha2, Hb1, Hb2. reflexivity.
Defined.

(** X5. A reply of the handler has one of three shapes, whatever the
    request and the weather service: 200 with the very data the service
    returned for the parsed coordinates, which are finite and in range;
    400 with one of four fixed messages; or 500 with
    "Failed to fetch weather data", after the service threw for the parsed
    coordinates. *)
Theorem handler_reply_shapes :
  forall (D : Type) (weatherService : IWeatherService.t D)
         (req : Request) (log : list LogEntry)
         (resp : Response D) (log' : list LogEntry),
    WeatherRoute.getWeatherByCoordinates weatherService req log
    = (Normal resp, log') ->
    let asked a b :=
      IWeatherService.getWeatherByCoordinates weatherService (Fin a) (Fin b)
        (log ++ [LogHttp (ip req) "GET" (url req) (query req)])%list in
    let parsed a b :=
      exists la lo,
        toString (lat (query req)) = Normal la /\
        toString (lon (query req)) = Normal lo /\
        parseFloatStr la = Fin a /\ parseFloatStr lo = Fin b /\
        (-90 <= a <= 90)%Q /\ (-180 <= b <= 180)%Q in
    (exists a b d,
        parsed a b /\ asked a b = (Normal d, log') /\
        resp = {| status := 200; body := DataBody d |}) \/
    (exists msg,
        In msg badRequestMessages /\
        resp = {| status := 400; body := ErrorBody (Some msg) |}) \/
    (exists a b error log0,
        parsed a b /\ asked a b = (Throw error, log0) /\
        resp = {| status := 500;
                  body := ErrorBody (Some "Failed to fetch weather data") |}).
Proof.
  intros D svc req log resp log' Hrun asked parsed.
  destruct (handler_cases svc req log)
    as [H | [(e & _ & H) | [(la & lo & msg & _ & _ & _ & Hin & H)
                           | (la & lo & a & b & Hla & Hlo & Ha & Hb & Hra & Hrb & H)]]];
    rewrite H in Hrun.
  - injection Hrun as <- _. right; left.
    eexists. split; [ | reflexivity]. cbn. auto.
  - discriminate Hrun.
  - injection Hrun as <- _. right; left.
    exists msg. split; [ | reflexivity].
    cbn in Hin |- *. tauto.
  - assert (Hp : parsed a b) by (exists la, lo; auto 10).
    destruct (IWeatherService.getWeatherByCoordinates svc _ _ _)
      as [[weatherData | error] log''] eqn:Hsvc.
    + injection Hrun as <- <-. left. exists a, b, weatherData. auto.
    + injection Hrun as <- _. right; right. exists a, b, error, log''. auto.
Qed.

Lemma handler_reply_shapes_witness :
  let service : IWeatherService.t string :=
    {| IWeatherService.getWeatherByCoordinates := fun _ _ => eff_ret "sunny" |} in
  let req := {| ip := None; url := "/coordinates?lat=10&lon=20";
                query := {| lat := JStr "10"; lon := JStr "20" |} |} in
  exists a b d,
    IWeatherService.getWeatherByCoordinates service (Fin a) (Fin b)
      [LogHttp None "GET" "/coordinates?lat=10&lon=20"
               {| lat := JStr "10"; lon := JStr "20" |}]
    = (Normal d, [LogHttp None "GET" "/coordinates?lat=10&lon=20"
                          {| lat := JStr "10"; lon := JStr "20" |}]) /\
    {| status := 200; body := DataBody "sunny" |}
    = {| status := 200; body := DataBody d |}.
Proof.
  intros service req.
  destruct (handler_reply_shapes string service req []
              {| status := 200; body := DataBody "sunny" |}
              [LogHttp None "GET" "/coordinates?lat=10&lon=20"
                       {| lat := JStr "10"; lon := JStr "20" |}])
    as [(a & b & d & _ & Hasked & Hresp)
       | [(msg & _ & Hresp) | (a & b & error & log0 & _ & _ & Hresp)]].
  - vm_compute. reflexivity.
  - exists a, b, d. split; assumption.
  - discriminate Hresp.
  - discriminate Hresp.
Defined.

(** X6. [OpenWeatherService.getWeatherByCoordinates] returns what the mapper
    made of the response and leaves the log alone, or it throws the very
    error the HTTP client or the mapper threw, after logging it once with
    the two coordinates; the mapper is not run when the request failed. *)
Theorem service_returns_or_rethrows :
  forall (self : OpenWeatherService.t) (lat lon : JsNumber)
         (log : list LogEntry),
    let fetched :=
      AxiosInstance.get (OpenWeatherService.httpClient self)
                        (OpenWeatherService.requestUrl self lat lon) in
    (forall d log',
        OpenWeatherService.getWeatherByCoordinates self lat lon log
        = (Normal d, log') ->
        log' = log /\
        exists apiResponse,
          fetched = Normal apiResponse /\
          WeatherMapper.mapToWeatherServiceData
            (OpenWeatherService.mapper self) (data apiResponse) = Normal d) /\
    (forall error log',
        OpenWeatherService.getWeatherByCoordinates self lat lon log
        = (Throw error, log') ->
        log' = (log ++ [fetchErrorEntry error lat lon])%list /\
        (fetched = Throw error \/
         exists apiResponse,
           fetched = Normal apiResponse /\
           WeatherMapper.mapToWeatherServiceData
             (OpenWeatherService.mapper self) (data apiResponse) = Throw error)).
Proof.
  intros self la lo log fetched.
  unfold OpenWeatherService.getWeatherByCoordinates,
    try_catch, eff_bind, eff_lift, eff_log, eff_throw, eff_ret.
  fold fetched.
  destruct fetched as [apiResponse | e] eqn:Hget.
  - destruct (WeatherMapper.mapToWeatherServiceData
                (OpenWeatherService.mapper self) (data apiResponse))
      as [d0 | e] eqn:Hmap.
    + split.
      * intros d log' H. injection H as <- <-. split; [reflexivity | eauto].
      * intros error log' H. discriminate H.
    + split.
      * intros d log' H. discriminate H.
      * intros error log' H. injection H as <- <-.
        split; [reflexivity | right; eauto].
  - split.
    + intros d log' H. discriminate H.
    + intros error log' H. injection H as <- <-.
      split; [reflexivity | left; reflexivity].
Qed.

Lemma service_returns_or_rethrows_witness :
  let self :=
    {| OpenWeatherService.apiKey := "key";
       OpenWeatherService.baseUrl := "https://api.openweathermap.org/data/3.0/onecall";
       OpenWeatherService.httpClient :=
         {| AxiosInstance.get := fun _ => Normal {| data := JObj [] |} |};
       OpenWeatherService.mapper := OpenWeatherMapper.mapper |} in
  snd (OpenWeatherService.getWeatherByCoordinates self (ofZ 40) (ofZ (-74)) [])
  = [fetchErrorEntry
       (TypeError "Cannot read properties of undefined (reading 'weather')")
       (ofZ 40) (ofZ (-74))].
Proof.
  intros self.
  apply (proj2 (service_returns_or_rethrows self (ofZ 40) (ofZ (-74)) [])
           (TypeError "Cannot read properties of undefined (reading 'weather')")).
  vm_compute. reflexivity.
Defined.

(** X7. End to end: with valid coordinates, a provider response the mapper
    can read is answered 200 with exactly the mapped data, the request
    having gone to the URL built from the parsed coordinates; nothing but
    the line of the request is logged. *)
Theorem handler_success_end_to_end :
  forall (self : OpenWeatherService.t) (req : Request) (log : list LogEntry)
         (la lo : string) (a b : JsNumber)
         (apiResponse : AxiosResponse) (weatherData : WeatherServiceData),
    lat (query req) = JStr la -> lon (query req) = JStr lo ->
    la <> "" -> lo <> "" ->
    areCoordinatesValid la lo = valid a b ->
    AxiosInstance.get (OpenWeatherService.httpClient self)
                      (OpenWeatherService.requestUrl self a b)
      = Normal apiResponse ->
    WeatherMapper.mapToWeatherServiceData
      (OpenWeatherService.mapper self) (data apiResponse) = Normal weatherData ->
    WeatherRoute.getWeatherByCoordinates (OpenWeatherService.service self) req log
    = (Normal {| status := 200; body := DataBody weatherData |},
       log ++ [LogHttp (ip req) "GET" (url req) (query req)])%list.
Proof.
  intros self req log la lo a b apiResponse weatherData
         Hla Hlo Ha Ho Hv Hget Hmap.
  rewrite (handler_valid _ req log la lo a b Hla Hlo Ha Ho Hv).
  cbn [OpenWeatherService.service IWeatherService.getWeatherByCoordinates].
  unfold OpenWeatherService.getWeatherByCoordinates,
    try_catch, eff_bind, eff_lift, eff_log, eff_throw, eff_ret.
  rewrite Hget, Hmap. reflexivity.
Qed.

Lemma handler_success_end_to_end_witness :
  let payload :=
    JObj [("current", JObj [("weather", JArr [JObj [("id", JNum (ofZ 800))]]);
                            ("feels_like", JNum (ofZ 75))]);
          ("alerts", JArr [])] in
  let self :=
    {| OpenWeatherService.apiKey := "key";
       OpenWeatherService.baseUrl := "https://api.openweathermap.org/data/3.0/onecall";
       OpenWeatherService.httpClient :=
         {| AxiosInstance.get := fun url =>
              if String.eqb url
                   "https://api.openweathermap.org/data/3.0/onecall?lat=40.7128&lon=-74.006&exclude=minutely,hourly,daily&units=imperial&appid=key"
              then Normal {| data := payload |}
              else Throw (HostError "AxiosError" "404") |};
       OpenWeatherService.mapper := OpenWeatherMapper.mapper |} in
  let req :=
    {| ip := Some "127.0.0.1"; url := "/coordinates?lat=40.7128&lon=-74.0060";
       query := {| lat := JStr "40.7128"; lon := JStr "-74.0060" |} |} in
  WeatherRoute.getWeatherByCoordinates (OpenWeatherService.service self) req []
  = (Normal {| status := 200;
               body := DataBody {| current_condition := "Clear Sky";
                                   temperature_description := "Warm";
                                   active_alerts := [] |} |},
     [LogHttp (ip req) "GET" (url req) (query req)]).
Proof.
  intros payload self req.
  apply (handler_success_end_to_end self req [] "40.7128" "-74.0060"
           (parseFloatStr "40.7128") (parseFloatStr "-74.0060")
           {| data := payload |}).
  - reflexivity.
  - reflexivity.
  - discriminate.
  - discriminate.
  - vm_compute. reflexivity.
  - vm_compute. reflexivity.
  - vm_compute. reflexivity.
Defined.

(* ===================================================================== *)
(** ** Further properties of the mapper *)
(* ===================================================================== *)

Lemma string_length_positive (s : string) :
  s <> "" ->
  js_gt (ofZ (Z.of_nat (String.length s))) (ofZ 0) = true.
Proof.
  intros Hne. apply js_gt_Fin. unfold inject_Z, Qlt. cbn.
  destruct s; [contradiction | cbn; lia].
Qed.

(** X8. Only an array gives alerts.  When [alerts] is anything else,
    [mapAlerts] returns the empty list or throws; for a non-empty string it
    throws "alerts.map is not a function", for a number or a boolean it
    returns the empty list. *)
Theorem mapAlerts_without_an_array :
  forall data alerts,
    getProp data "alerts" = Normal alerts ->
    (forall elems, alerts <> JArr elems) ->
    (mapAlerts data = Normal [] \/ exists e, mapAlerts data = Throw e) /\
    (forall s, alerts = JStr s -> s <> "" ->
               mapAlerts data = Throw (TypeError "alerts.map is not a function")) /\
    ((exists x, alerts = JNum x) \/ (exists b, alerts = JBool b) ->
     mapAlerts data = Normal []).
Proof.
  intros data alerts Hget Hna. unfold mapAlerts. rewrite Hget.
  cbn [mbind Completion_bind]. split; [ | split].
  - destruct (truthy alerts); [ | left; reflexivity].
    destruct (getProp alerts "length") as [len | e]; [ | right; eauto].
    cbn [mbind Completion_bind].
    destruct (toNumber len) as [n | e]; [ | right; eauto].
    cbn [mbind Completion_bind].
    destruct (js_gt n (ofZ 0)); [ | left; reflexivity].
    right. destruct alerts; cbn [callMap]; eauto.
    exfalso. eapply Hna. reflexivity.
  - intros s -> Hs. cbn [truthy]. apply String.eqb_neq in Hs as Hs'.
    rewrite Hs'. cbn [negb getProp String.eqb Ascii.eqb Bool.eqb].
    cbn [mbind Completion_bind toNumber].
    rewrite (string_length_positive s Hs). reflexivity.
  - intros [[x ->] | [b ->]].
    + destruct (truthy (JNum x)); reflexivity.
    + destruct b; reflexivity.
Qed.

Lemma mapAlerts_without_an_array_witness :
  mapAlerts (payloadWithAlerts (JStr "none"))
  = Throw (TypeError "alerts.map is not a function").
Proof.
  refine (proj1 (proj2 (mapAlerts_without_an_array
                          (payloadWithAlerts (JStr "none")) (JStr "none")
                          eq_refl _)) "none" eq_refl _); discriminate.
Defined.

Lemma mapM_event_throws (elems : list JsValue) :
  Exists nullish elems ->
  exists msg,
    mapM (fun alert => ev ← getProp alert "event"; mret {| event := ev |}) elems
    = Throw (TypeError msg).
Proof.
  induction elems as [ | alert elems IH]; intros Hex.
  - inversion Hex.
  - destruct (getProp alert "event") as [ev | e] eqn:Hev.
    + assert (Htail : Exists nullish elems).
      { inversion Hex as [? ? Hn | ]; [ | assumption].
        destruct Hn as [-> | ->]; discriminate Hev. }
      destruct (IH Htail) as [msg Hmsg].
      exists msg. cbn. rewrite Hev. cbn. rewrite Hmsg. reflexivity.
    + destruct alert; try discriminate Hev.
      * eexists. cbn. reflexivity.
      * eexists. cbn. reflexivity.
Qed.

(** X9. One unreadable alert loses them all: as soon as the alerts list
    holds a [null] (or [undefined]) element, [mapAlerts] throws a TypeError
    and [mapToWeatherServiceData] returns nothing, whatever the other
    alerts are. *)
Theorem mapAlerts_throws_on_null_alert :
  forall data elems,
    getProp data "alerts" = Normal (JArr elems) ->
    Exists nullish elems ->
    (exists msg, mapAlerts data = Throw (TypeError msg)) /\
    (exists e, mapToWeatherServiceData data = Throw e).
Proof.
  intros data elems Hget Hex.
  assert (Hne : elems <> []).
  { intros ->. inversion Hex. }
  assert (Hthrow : exists msg, mapAlerts data = Throw (TypeError msg)).
  { destruct (mapM_event_throws elems Hex) as [msg Hmsg].
    exists msg. unfold mapAlerts. rewrite Hget.
    cbn [mbind Completion_bind truthy]. rewrite getProp_length.
    cbn [mbind Completion_bind toNumber].
    rewrite (length_positive elems Hne). exact Hmsg. }
  split; [exact Hthrow | ].
  destruct Hthrow as [msg Hmsg]. unfold mapToWeatherServiceData.
  destruct (mapCurrentCondition data) as [c | e]; [ | eauto].
  cbn [mbind Completion_bind].
  destruct (mapTempDescription data) as [t | e]; [ | eauto].
  cbn [mbind Completion_bind]. rewrite Hmsg. eauto.
Qed.

Lemma mapAlerts_throws_on_null_alert_witness :
  exists msg,
    mapAlerts (payloadWithAlerts
                 (JArr [JObj [("event", JStr "Heat Advisory")]; JNull]))
    = Throw (TypeError msg).
Proof.
  refine (proj1 (mapAlerts_throws_on_null_alert
                   (payloadWithAlerts
                      (JArr [JObj [("event", JStr "Heat Advisory")]; JNull]))
                   [JObj [("event", JStr "Heat Advisory")]; JNull]
                   eq_refl _)).
  apply Exists_cons_tl, Exists_cons_hd. right. reflexivity.
Defined.

(** X10. Warmer never reads colder: for two temperatures, the label of the
    higher one stands at the same place or later in the list of labels
    ordered from "Extremely Cold" to "Extremely Hot". *)
Theorem describeTemp_monotone :
  forall q1 q2 : Q,
    (q1 <= q2)%Q ->
    exists i j : nat,
      indexOf (describeTemp (Fin q1)) temperatureLabels = Some i /\
      indexOf (describeTemp (Fin q2)) temperatureLabels = Some j /\
      (i <= j)%nat.
Proof.
  intros q1 q2 Hle.
  unfold describeTemp; cbn [isNaN].
  unfold TEMP_EXTREMELY_COLD_UPPER, TEMP_VERY_COLD_UPPER, TEMP_COLD_UPPER,
    TEMP_CHILLY_UPPER, TEMP_COOL_UPPER, TEMP_MILD_UPPER, TEMP_WARM_UPPER,
    TEMP_HOT_UPPER, TEMP_VERY_HOT_UPPER.
  repeat match goal with
  | |- context [js_le (Fin ?q) (ofZ ?z)] =>
      let E := fresh "E" in
      destruct (js_le (Fin q) (ofZ z)) eqn:E;
      [apply js_le_Fin in E | apply js_le_Fin_false in E]
  | |- context [js_gt (Fin ?q) (ofZ ?z)] =>
      let E := fresh "E" in
      destruct (js_gt (Fin q) (ofZ z)) eqn:E;
      [apply js_gt_Fin in E
      | apply not_true_iff_false in E; rewrite js_gt_Fin in E]
  end;
  unfold inject_Z in *;
  try contradiction;
  try (exfalso; lra);
  (eexists _, _; split; [reflexivity | split; [reflexivity | lia]]).
Qed.

Lemma describeTemp_monotone_witness :
  exists i j : nat,
    indexOf (describeTemp (Fin 31)) temperatureLabels = Some i /\
    indexOf (describeTemp (Fin 33)) temperatureLabels = Some j /\
    (i <= j)%nat.
Proof. apply (describeTemp_monotone 31 33). discriminate. Defined.

Lemma describeCondition_in (conditionCode : JsNumber) :
  describeCondition conditionCode = "Unknown" \/
  In (describeCondition conditionCode) (map snd conditionTable).
Proof.
  unfold describeCondition. destruct (isNaN conditionCode); [left; reflexivity | ].
  destruct (conditionMapAt conditionCode) as [s | ] eqn:E; [ | left; reflexivity].
  destruct (String.eqb s ""); [left; reflexivity | right].
  destruct conditionCode as [ | | | q]; try discriminate E.
  cbn [conditionMapAt] in E. destruct (Qden q); try discriminate E.
  unfold conditionMap in E. apply elem_of_list_to_map_2 in E.
  apply list_elem_of_In in E.
  change s with (snd (Qnum q, s)). apply in_map. exact E.
Qed.

Lemma describeTemp_in (temp : JsNumber) :
  describeTemp temp = "Unknown" \/ In (describeTemp temp) temperatureLabels.
Proof.
  unfold describeTemp, temperatureLabels.
  repeat match goal with
  | |- context [if ?b then _ else _] => destruct b
  end; cbn [In]; auto 15.
Qed.

Lemma mapCurrentCondition_inv (data : JsValue) (c : string) :
  mapCurrentCondition data = Normal c ->
  exists conditionCode, c = describeCondition conditionCode.
Proof.
  unfold mapCurrentCondition, parseInt.
  destruct (getProp data "current") as [current | ]; [ | discriminate].
  cbn [mbind Completion_bind].
  destruct (getProp current "weather") as [weather | ]; [ | discriminate].
  cbn [mbind Completion_bind].
  destruct (getProp weather "0") as [weatherData | ]; [ | discriminate].
  cbn [mbind Completion_bind].
  destruct (getProp weatherData "id") as [id | ]; [ | discriminate].
  cbn [mbind Completion_bind].
  destruct (toString id) as [sid | ]; [ | discriminate].
  cbn. intros H. injection H as <-. eauto.
Qed.

Lemma mapTempDescription_inv (data : JsValue) (t : string) :
  mapTempDescription data = Normal t ->
  exists temp, t = describeTemp temp.
Proof.
  unfold mapTempDescription, parseFloat.
  destruct (getProp data "current") as [current | ]; [ | discriminate].
  cbn [mbind Completion_bind].
  destruct (getProp current "feels_like") as [feels_like | ]; [ | discriminate].
  cbn [mbind Completion_bind].
  destruct (toString feels_like) as [sfl | ]; [ | discriminate].
  cbn. intros H. injection H as <-. eauto.
Qed.

(** X11. Whatever the payload, when [mapToWeatherServiceData] returns, the
    condition is "Unknown" or one of the descriptions of the table, and
    the temperature description is "Unknown" or one of the ten labels:
    nothing of the payload's own text reaches these two fields. *)
Theorem mapper_output_vocabulary :
  forall data result,
    mapToWeatherServiceData data = Normal result ->
    (current_condition result = "Unknown" \/
     In (current_condition result) (map snd conditionTable)) /\
    (temperature_description result = "Unknown" \/
     In (temperature_description result) temperatureLabels).
Proof.
  intros data result. unfold mapToWeatherServiceData.
  destruct (mapCurrentCondition data) as [c | ] eqn:Hc; [ | discriminate].
  cbn [mbind Completion_bind].
  destruct (mapTempDescription data) as [t | ] eqn:Ht; [ | discriminate].
  cbn [mbind Completion_bind].
  destruct (mapAlerts data) as [a | ]; [ | discriminate].
  cbn. intros H. injection H as <-. cbn [current_condition temperature_description].
  apply mapCurrentCondition_inv in Hc as [code ->].
  apply mapTempDescription_inv in Ht as [temp ->].
  split; [apply describeCondition_in | apply describeTemp_in].
Qed.

Lemma mapper_output_vocabulary_witness :
  let result := {| current_condition := "Unknown";
                   temperature_description := "Hot";
                   active_alerts := [] |} in
  (current_condition result = "Unknown" \/
   In (current_condition result) (map snd conditionTable)) /\
  (temperature_description result = "Unknown" \/
   In (temperature_description result) temperatureLabels).
Proof.
  intros result.
  apply (mapper_output_vocabulary
           (JObj [("current",
                   JObj [("weather", JArr [JObj [("id", JStr "<b>storm</b>")]]);
                         ("feels_like", JStr "80 degrees")])])).
  vm_compute. reflexivity.
Defined.

(** X12. Of the payload the mapper reads [current.weather],
    [current.feels_like] and [alerts], and nothing else: two payloads that
    agree on these three give the same result, whatever else they
    carry. *)
Theorem mapper_reads_three_fields :
  forall fields1 fields2 current1 current2,
    lookupField "current" fields1 = Some (JObj current1) ->
    lookupField "current" fields2 = Some (JObj current2) ->
    lookupField "weather" current1 = lookupField "weather" current2 ->
    lookupField "feels_like" current1 = lookupField "feels_like" current2 ->
    lookupField "alerts" fields1 = lookupField "alerts" fields2 ->
    mapToWeatherServiceData (JObj fields1) = mapToWeatherServiceData (JObj fields2).
Proof.
  intros f1 f2 c1 c2 H1 H2 Hw Hf Ha.
  unfold mapToWeatherServiceData, mapCurrentCondition, mapTempDescription,
    mapAlerts.
  cbn [getProp]. rewrite H1, H2, Ha.
  cbn [default from_option id mbind Completion_bind getProp].
  rewrite Hw, Hf. reflexivity.
Qed.

Lemma mapper_reads_three_fields_witness :
  mapToWeatherServiceData
    (JObj [("lat", JNum (ofZ 40)); ("timezone", JStr "America/New_York");
           ("current", JObj [("temp", JNum (ofZ 70));
                             ("feels_like", JNum (ofZ 75));
                             ("weather", JArr [JObj [("id", JNum (ofZ 800))]])])])
  = mapToWeatherServiceData
      (JObj [("current", JObj [("weather", JArr [JObj [("id", JNum (ofZ 800))]]);
                               ("feels_like", JNum (ofZ 75))])]).
Proof.
  eapply mapper_reads_three_fields; reflexivity.
Defined.

(** X13. Only the first entry of [current.weather] counts: two payloads
    whose weather lists start with the same entry get the same
    condition. *)
Theorem mapCurrentCondition_reads_first_entry :
  forall data1 data2 current1 current2 first rest1 rest2,
    getProp data1 "current" = Normal current1 ->
    getProp data2 "current" = Normal current2 ->
    getProp current1 "weather" = Normal (JArr (first :: rest1)) ->
    getProp current2 "weather" = Normal (JArr (first :: rest2)) ->
    mapCurrentCondition data1 = mapCurrentCondition data2.
Proof.
  intros d1 d2 c1 c2 w r1 r2 H1 H2 Hw1 Hw2.
  unfold mapCurrentCondition.
  rewrite H1, H2. cbn [mbind Completion_bind]. rewrite Hw1, Hw2. reflexivity.
Qed.

Lemma mapCurrentCondition_reads_first_entry_witness :
  mapCurrentCondition
    (JObj [("current",
            JObj [("weather", JArr [JObj [("id", JNum (ofZ 500))];
                                    JObj [("id", JNum (ofZ 701))]])])])
  = mapCurrentCondition (payloadWithId (JNum (ofZ 500))).
Proof.
  eapply mapCurrentCondition_reads_first_entry; reflexivity.
Defined.

(* ===================================================================== *)
(** ** Further properties of the API-key middleware *)
(* ===================================================================== *)

Import ApiKeyValidator.

(** Outside development mode the middleware decides on the presented key
    alone. *)
Lemma gate_on_presented_key (env : Env) (req : ApiKeyValidator.Request)
      (key : ParamValue) :
  NODE_ENV env <> Some "development" ->
  presents req key ->
  apiKeyValidator env req
  = if differsFromEnv (Some key) (WEATHER_SERVICE_API_KEY env)
    then Respond 403 "Forbidden" else Next.
Proof.
  intros Hprod Hkey. unfold apiKeyValidator.
  rewrite bool_decide_eq_false_2 by assumption.
  assert (Hor : js_or (headers req !! "x-api-key")
                      (ApiKeyValidator.query req !! "apikey") = Some key
                /\ truthyParam (Some key) = true).
  { unfold js_or. destruct Hkey as [[Hh Heq] | (Hh & Hq & Heq)].
    - apply truthyParam_true in Hh. rewrite Hh. rewrite <- Heq. auto.
    - apply truthyParam_false in Hh. apply truthyParam_true in Hq.
      rewrite Hh. rewrite <- Heq. auto. }
  destruct Hor as [-> ->]. reflexivity.
Qed.

(** A request presents a key or it does not. *)
Lemma presents_or_not (req : ApiKeyValidator.Request) :
  (exists key, presents req key) \/
  (notPresented (headers req !! "x-api-key") /\
   notPresented (ApiKeyValidator.query req !! "apikey")).
Proof.
  unfold presents.
  destruct (truthyParam (headers req !! "x-api-key")) eqn:Hh.
  - apply truthyParam_true in Hh.
    destruct (headers req !! "x-api-key") as [key | ] eqn:E.
    + left. exists key. left. auto.
    + exfalso. apply Hh. left. reflexivity.
  - apply truthyParam_false in Hh.
    destruct (truthyParam (ApiKeyValidator.query req !! "apikey")) eqn:Hq.
    + apply truthyParam_true in Hq.
      destruct (ApiKeyValidator.query req !! "apikey") as [key | ] eqn:E.
      * left. exists key. right. auto.
      * exfalso. apply Hq. left. reflexivity.
    + apply truthyParam_false in Hq. right. auto.
Qed.

Lemma presents_nonempty (req : ApiKeyValidator.Request) :
  ~ presents req (PString "").
Proof.
  intros [[Hn Heq] | (_ & Hn & Heq)]; apply Hn; right; exact Heq.
Qed.

Lemma gate_without_key (env : Env) (req : ApiKeyValidator.Request) :
  NODE_ENV env <> Some "development" ->
  notPresented (headers req !! "x-api-key") ->
  notPresented (ApiKeyValidator.query req !! "apikey") ->
  apiKeyValidator env req = Respond 401 "Unauthorized".
Proof.
  intros Hprod Hh Hq. unfold apiKeyValidator.
  rewrite bool_decide_eq_false_2 by assumption.
  apply truthyParam_false in Hh, Hq. unfold js_or. rewrite Hh, Hq. reflexivity.
Qed.

(** X14. The header wins over the query parameter: once the [x-api-key]
    header carries a key, the [apikey] parameter is not looked at, so a
    wrong header is not made good by a right parameter. *)
Theorem header_key_takes_precedence :
  forall (env : Env) (req1 req2 : ApiKeyValidator.Request),
    headers req1 !! "x-api-key" = headers req2 !! "x-api-key" ->
    ~ notPresented (headers req1 !! "x-api-key") ->
    apiKeyValidator env req1 = apiKeyValidator env req2.
Proof.
  intros env req1 req2 Heq Hh. unfold apiKeyValidator, js_or.
  rewrite <- Heq. apply truthyParam_true in Hh. rewrite Hh. reflexivity.
Qed.

Lemma header_key_takes_precedence_witness :
  let env := {| NODE_ENV := Some "production";
                WEATHER_SERVICE_API_KEY := Some "s3cret" |} in
  apiKeyValidator env
    {| headers := {["x-api-key" := PString "guess"]};
       ApiKeyValidator.query := {["apikey" := PString "s3cret"]} |}
  = apiKeyValidator env
      {| headers := {["x-api-key" := PString "guess"]};
         ApiKeyValidator.query := ∅ |}.
Proof.
  intros env. apply header_key_takes_precedence.
  - reflexivity.
  - intros [H | H]; discriminate H.
Defined.

(** X15. Outside development mode nothing passes without the secret: when
    the middleware calls the next handler, the key the request presents is
    a string equal to the configured secret, and that secret is not
    empty. *)
Theorem next_only_with_the_secret :
  forall (env : Env) (req : ApiKeyValidator.Request),
    NODE_ENV env <> Some "development" ->
    apiKeyValidator env req = Next ->
    exists secret,
      secret <> "" /\
      WEATHER_SERVICE_API_KEY env = Some secret /\
      presents req (PString secret).
Proof.
  intros env req Hprod Hnext.
  destruct (presents_or_not req) as [[key Hkey] | [Hh Hq]].
  - rewrite (gate_on_presented_key env req key Hprod Hkey) in Hnext.
    destruct (differsFromEnv (Some key) (WEATHER_SERVICE_API_KEY env)) eqn:E;
      [discriminate Hnext | ].
    apply differsFromEnv_false in E as (secret & Hs & ->).
    exists secret. repeat split; try assumption.
    intros ->. exact (presents_nonempty req Hkey).
  - rewrite (gate_without_key env req Hprod Hh Hq) in Hnext. discriminate Hnext.
Qed.

Lemma next_only_with_the_secret_witness :
  exists secret,
    secret <> "" /\
    Some "s3cret" = Some secret /\
    presents {| headers := ∅;
                ApiKeyValidator.query := {["apikey" := PString "s3cret"]} |}
             (PString secret).
Proof.
  apply (next_only_with_the_secret
           {| NODE_ENV := None; WEATHER_SERVICE_API_KEY := Some "s3cret" |}
           {| headers := ∅;
              ApiKeyValidator.query := {["apikey" := PString "s3cret"]} |}).
  - discriminate.
  - reflexivity.
Defined.

(** X16. The gate fails closed: outside development mode, when the secret
    is not configured, or configured empty, every request is turned away
    with 401 or 403, whatever key it presents. *)
Theorem unset_secret_rejects_everything :
  forall (env : Env) (req : ApiKeyValidator.Request),
    NODE_ENV env <> Some "development" ->
    WEATHER_SERVICE_API_KEY env = None \/ WEATHER_SERVICE_API_KEY env = Some "" ->
    apiKeyValidator env req = Respond 401 "Unauthorized" \/
    apiKeyValidator env req = Respond 403 "Forbidden".
Proof.
  intros env req Hprod Hsecret.
  destruct (presents_or_not req) as [[key Hkey] | [Hh Hq]].
  - right. rewrite (gate_on_presented_key env req key Hprod Hkey).
    destruct (differsFromEnv (Some key) (WEATHER_SERVICE_API_KEY env)) eqn:E;
      [reflexivity | ].
    apply differsFromEnv_false in E as (secret & Hs & ->).
    destruct Hsecret as [Hnone | Hempty]; rewrite Hs in *; [discriminate | ].
    injection Hempty as ->. destruct (presents_nonempty req Hkey).
  - left. apply gate_without_key; assumption.
Qed.

Lemma unset_secret_rejects_everything_witness :
  let env := {| NODE_ENV := Some "production"; WEATHER_SERVICE_API_KEY := None |} in
  let req := {| headers := {["x-api-key" := PString "anything"]};
                ApiKeyValidator.query := ∅ |} in
  apiKeyValidator env req = Respond 401 "Unauthorized" \/
  apiKeyValidator env req = Respond 403 "Forbidden".
Proof.
  intros env req. apply unset_secret_rejects_everything.
  - discriminate.
  - left. reflexivity.
Defined.

(** X17. A key that is not a single string never passes: outside
    development mode a request whose key arrives as a list (the parameter
    sent twice) or as a nested object is answered 403, even when every
    copy is the secret. *)
Theorem repeated_key_is_forbidden :
  forall (env : Env) (req : ApiKeyValidator.Request) (key : ParamValue),
    NODE_ENV env <> Some "development" ->
    presents req key ->
    (forall s, key <> PString s) ->
    apiKeyValidator env req = Respond 403 "Forbidden".
Proof.
  intros env req key Hprod Hkey Hns.
  rewrite (gate_on_presented_key env req key Hprod Hkey).
  destruct key as [s | items | fields]; [destruct (Hns s eq_refl) | | ];
    destruct (WEATHER_SERVICE_API_KEY env); reflexivity.
Qed.

Lemma repeated_key_is_forbidden_witness :
  apiKeyValidator
    {| NODE_ENV := Some "production"; WEATHER_SERVICE_API_KEY := Some "s3cret" |}
    {| headers := ∅;
       ApiKeyValidator.query :=
         {["apikey" := PArray [PString "s3cret"; PString "s3cret"]]} |}
  = Respond 403 "Forbidden".
Proof.
  apply (repeated_key_is_forbidden _ _ (PArray [PString "s3cret"; PString "s3cret"])).
  - discriminate.
  - right. split; [left; reflexivity | split; [ | reflexivity]].
    intros [H | H]; discriminate H.
  - discriminate.
Defined.

(** X18. Development mode is recognised by the exact value
    ["development"] of [NODE_ENV]: a request without a key goes on to the
    handler with that value, and with any other value, or none, it is
    answered 401 "Unauthorized". *)
Theorem only_development_bypasses :
  forall (env : Env) (req : ApiKeyValidator.Request),
    notPresented (headers req !! "x-api-key") ->
    notPresented (ApiKeyValidator.query req !! "apikey") ->
    (NODE_ENV env = Some "development" -> apiKeyValidator env req = Next) /\
    (NODE_ENV env <> Some "development" ->
     apiKeyValidator env req = Respond 401 "Unauthorized") /\
    (apiKeyValidator env req = Next <-> NODE_ENV env = Some "development").
Proof.
  intros env req Hh Hq.
  assert (Hdev : NODE_ENV env = Some "development" -> apiKeyValidator env req = Next).
  { intros Hdev. unfold apiKeyValidator.
    rewrite bool_decide_eq_true_2 by assumption. reflexivity. }
  split; [exact Hdev | split].
  - intros Hprod. apply gate_without_key; assumption.
  - split; [ | exact Hdev].
    intros Hnext.
    destruct (decide (NODE_ENV env = Some "development")) as [H | Hprod];
      [exact H | ].
    rewrite (gate_without_key env req Hprod Hh Hq) in Hnext. discriminate Hnext.
Qed.

Lemma only_development_bypasses_witness :
  apiKeyValidator {| NODE_ENV := Some "Development";
                     WEATHER_SERVICE_API_KEY := Some "s3cret" |}
                  {| headers := ∅; ApiKeyValidator.query := ∅ |}
  = Respond 401 "Unauthorized".
Proof.
  refine (proj1 (proj2 (only_development_bypasses
                          {| NODE_ENV := Some "Development";
                             WEATHER_SERVICE_API_KEY := Some "s3cret" |}
                          {| headers := ∅; ApiKeyValidator.query := ∅ |}
                          _ _)) _).
  - left. reflexivity.
  - left. reflexivity.
  - discriminate.
Defined.

(* ===================================================================== *)
(** ** The info route and the start of the server *)
(* ===================================================================== *)

(** X19. [getInfo] answers every request the same way.  When the request
    can be logged the reply is 200 with the fixed description of the
    service; when [logger.http] throws, the error is handed to
    [logger.error] with the request's address, URL and query, and the
    reply is 500 "Internal Server Error"; the handler itself throws only
    when [logger.error] throws as well. *)
Theorem getInfo_replies :
  forall (S : Type) (logger : InfoRoute.Logger S) (req : InfoRoute.Request)
         (s : S),
    let logged :=
      InfoRoute.http logger (InfoRoute.ip req) "GET" (InfoRoute.url req)
                     (InfoRoute.query req) s in
    (forall s1,
        logged = (Normal tt, s1) ->
        InfoRoute.getInfo logger req s
        = (Normal {| InfoRoute.status := 200;
                     InfoRoute.body := InfoRoute.InfoBody
                       {| InfoRoute.service := "WeatherService API";
                          InfoRoute.version := "1.0.0";
                          InfoRoute.description :=
                            "This API provides weather information based on coordinates." |} |},
           s1)) /\
    (forall e s1 s2,
        logged = (Throw e, s1) ->
        InfoRoute.error logger "Error while processing request:"
          (InfoRoute.Context e (InfoRoute.ip req) (InfoRoute.url req)
                             (InfoRoute.query req)) s1
        = (Normal tt, s2) ->
        InfoRoute.getInfo logger req s
        = (Normal {| InfoRoute.status := 500;
                     InfoRoute.body := InfoRoute.ErrorBody "Internal Server Error" |},
           s2)) /\
    (forall e' s',
        InfoRoute.getInfo logger req s = (Throw e', s') ->
        exists e s1,
          logged = (Throw e, s1) /\
          InfoRoute.error logger "Error while processing request:"
            (InfoRoute.Context e (InfoRoute.ip req) (InfoRoute.url req)
                               (InfoRoute.query req)) s1
          = (Throw e', s')).
Proof.
  intros S logger req s logged. unfold InfoRoute.getInfo. fold logged.
  repeat split.
  - intros s1 ->. reflexivity.
  - intros e s1 s2 -> ->. reflexivity.
  - intros e' s'. destruct logged as [[u | e] s1]; [discriminate | ].
    destruct (InfoRoute.error logger _ _ s1) as [[u | e2] s2] eqn:E;
      [discriminate | ].
    intros H. injection H as <- <-. eauto.
Qed.

Lemma getInfo_replies_witness :
  let logger : InfoRoute.Logger (list string) :=
    {| InfoRoute.http := fun _ _ _ _ s => (Throw (HostError "Error" "disk full"), s);
       InfoRoute.error := fun msg _ s => (Normal tt, (s ++ [msg])%list) |} in
  InfoRoute.getInfo logger
    {| InfoRoute.ip := None; InfoRoute.url := "/version";
       InfoRoute.query := JObj [] |} []
  = (Normal {| InfoRoute.status := 500;
               InfoRoute.body := InfoRoute.ErrorBody "Internal Server Error" |},
     ["Error while processing request:"]).
Proof.
  intros logger.
  apply (proj1 (proj2 (getInfo_replies (list string) logger
                         {| InfoRoute.ip := None; InfoRoute.url := "/version";
                            InfoRoute.query := JObj [] |} []))
           (HostError "Error" "disk full") [] ["Error while processing request:"]);
    reflexivity.
Defined.

(** X20. The server starts listening exactly when [PORT],
    [OPENWEATHER_API_KEY] and [OPENWEATHER_BASE_URL] are all set and not
    empty, and then on that port; in every other case the process exits
    with code 1 and the last thing logged is an error. *)
Theorem main_listens_iff_configured :
  forall (env : Startup.Env) (axios : AxiosInstance.t),
    ((exists port mounts, fst (Startup.main env axios) = Startup.Listen port mounts)
     <-> isSet (Startup.PORT env) /\ isSet (Startup.OPENWEATHER_API_KEY env) /\
         isSet (Startup.OPENWEATHER_BASE_URL env)) /\
    (forall port mounts,
        fst (Startup.main env axios) = Startup.Listen port mounts ->
        Startup.PORT env = Some port) /\
    ((forall port mounts,
        fst (Startup.main env axios) <> Startup.Listen port mounts) ->
     fst (Startup.main env axios) = Startup.Exit 1 /\
     exists msg, last (snd (Startup.main env axios)) = Some (LogError msg [])).
Proof.
  intros env axios. unfold Startup.main, isSet.
  destruct (Startup.PORT env) as [port | ].
  2:{ split; [split | split].
      - intros (p & m & H). discriminate H.
      - intros ((p & H & _) & _). discriminate H.
      - intros p m H. discriminate H.
      - intros _. split; [reflexivity | eexists; reflexivity]. }
  cbn [Startup.unset].
  destruct (String.eqb port "") eqn:Hport.
  { apply String.eqb_eq in Hport. subst port. split; [split | split].
    - intros (p & m & H). discriminate H.
    - intros ((p & H & Hne) & _). injection H as <-. contradiction.
    - intros p m H. discriminate H.
    - intros _. split; [reflexivity | eexists; reflexivity]. }
  apply String.eqb_neq in Hport.
  destruct (Startup.OPENWEATHER_API_KEY env) as [key | ];
    destruct (Startup.OPENWEATHER_BASE_URL env) as [base | ];
    try (split; [split | split];
         [ intros (p & m & H); discriminate H
         | intros (_ & (k & Hk & _) & (b & Hb & _)); discriminate
         | intros p m H; discriminate H
         | intros _; split; [reflexivity | eexists; reflexivity] ]).
  destruct (String.eqb key "") eqn:Hkey; cbn [orb].
  { apply String.eqb_eq in Hkey. subst key. split; [split | split].
    - intros (p & m & H). discriminate H.
    - intros (_ & (k & Hk & Hne) & _). injection Hk as <-. contradiction.
    - intros p m H. discriminate H.
    - intros _. split; [reflexivity | eexists; reflexivity]. }
  destruct (String.eqb base "") eqn:Hbase.
  { apply String.eqb_eq in Hbase. subst base. split; [split | split].
    - intros (p & m & H). discriminate H.
    - intros (_ & _ & (b & Hb & Hne)). injection Hb as <-. contradiction.
    - intros p m H. discriminate H.
    - intros _. split; [reflexivity | eexists; reflexivity]. }
  apply String.eqb_neq in Hkey, Hbase.
  cbn. split; [split | split].
  - intros _. repeat split; eauto.
  - intros _. eauto.
  - intros p m H. injection H as <- _. reflexivity.
  - intros H. exfalso. eapply H. reflexivity.
Qed.

Lemma main_listens_iff_configured_witness :
  let axios := {| AxiosInstance.get := fun _ => Throw (HostError "AxiosError" "offline") |} in
  fst (Startup.main {| Startup.PORT := Some "3000";
                       Startup.OPENWEATHER_API_KEY := Some "";
                       Startup.OPENWEATHER_BASE_URL := Some "https://api.openweathermap.org" |}
                    axios)
  = Startup.Exit 1.
Proof.
  intros axios.
  apply (proj2 (proj2 (main_listens_iff_configured _ axios))).
  intros port mounts H. discriminate H.
Defined.

Import WeatherRoute.

(** X21. A request whose coordinates are both there but do not validate is
    answered 400 with the message [areCoordinatesValid] gave, and that same
    message is what gets logged as an error, right after the line of the
    request; the weather service is not asked. *)
Theorem handler_logs_validation_failure :
  forall (D : Type) (weatherService : IWeatherService.t D)
         (req : WeatherRoute.Request) (log : list LogEntry) (la lo : string),
    lat (WeatherRoute.query req) = JStr la ->
    lon (WeatherRoute.query req) = JStr lo ->
    la <> "" -> lo <> "" ->
    areValid (areCoordinatesValid la lo) = false ->
    exists msg,
      errorMessage (areCoordinatesValid la lo) = Some msg /\
      WeatherRoute.getWeatherByCoordinates weatherService req log
      = (Normal {| status := 400;
                   body := WeatherRoute.ErrorBody
                             (errorMessage (areCoordinatesValid la lo)) |},
         log ++ [LogHttp (WeatherRoute.ip req) "GET" (WeatherRoute.url req)
                         (WeatherRoute.query req);
                 LogError msg []])%list.
Proof.
  intros D svc req log la lo Hla Hlo Hm1 Hm2 Hinv.
  destruct (areCoordinatesValid_cases la lo)
    as [E | [E | [E | (a & b & _ & _ & _ & _ & E)]]].
  - exists ERRORS.INVALID_COORDINATES_TYPE. rewrite E. split; [reflexivity | ].
    apply (handler_invalid svc req log la lo ERRORS.INVALID_COORDINATES_TYPE
             Hla Hlo Hm1 Hm2 ltac:(discriminate) E).
  - exists ERRORS.INVALID_LATITUDE. rewrite E. split; [reflexivity | ].
    apply (handler_invalid svc req log la lo ERRORS.INVALID_LATITUDE
             Hla Hlo Hm1 Hm2 ltac:(discriminate) E).
  - exists ERRORS.INVALID_LONGITUDE. rewrite E. split; [reflexivity | ].
    apply (handler_invalid svc req log la lo ERRORS.INVALID_LONGITUDE
             Hla Hlo Hm1 Hm2 ltac:(discriminate) E).
  - rewrite E in Hinv. discriminate Hinv.
Qed.

Lemma handler_logs_validation_failure_witness :
  WeatherRoute.getWeatherByCoordinates
    {| IWeatherService.getWeatherByCoordinates := fun _ _ => eff_ret "sunny" |}
    {| WeatherRoute.ip := None; WeatherRoute.url := "/coordinates";
       WeatherRoute.query := {| lat := JStr "abc"; lon := JStr "0" |} |} []
  = (Normal {| status := 400;
               body := WeatherRoute.ErrorBody (Some "Coordinates must be numbers") |},
     [LogHttp None "GET" "/coordinates" {| lat := JStr "abc"; lon := JStr "0" |};
      LogError "Coordinates must be numbers" []]).
Proof.
  destruct (handler_logs_validation_failure string
              {| IWeatherService.getWeatherByCoordinates :=
                   fun _ _ => eff_ret "sunny" |}
              {| WeatherRoute.ip := None; WeatherRoute.url := "/coordinates";
                 WeatherRoute.query := {| lat := JStr "abc"; lon := JStr "0" |} |}
              [] "abc" "0" eq_refl eq_refl)
    as [msg [Hmsg Hrun]].
  - discriminate.
  - discriminate.
  - vm_compute. reflexivity.
  - vm_compute in Hmsg. injection Hmsg as <-. rewrite Hrun.
    vm_compute. reflexivity.
Defined.

(** X22. A coordinate that cannot be turned into a string stops the
    handler before it replies: when [lat], or [lon] after a readable [lat],
    is an object with a [toString] entry of its own (as [?lat[toString]=1]
    gives), the handler throws a TypeError; no reply is sent, nothing but
    the line of the request is logged and the weather service is not
    asked. *)
Theorem handler_throws_on_unreadable_coordinate :
  forall (D : Type) (weatherService : IWeatherService.t D)
         (req : WeatherRoute.Request) (log : list LogEntry)
         (fields : list (string * JsValue)) (entry : JsValue),
    lookupField "toString" fields = Some entry ->
    (lat (WeatherRoute.query req) = JObj fields /\
     truthy (lon (WeatherRoute.query req)) = true) \/
    (lon (WeatherRoute.query req) = JObj fields /\
     truthy (lat (WeatherRoute.query req)) = true /\
     exists la, toString (lat (WeatherRoute.query req)) = Normal la) ->
    WeatherRoute.getWeatherByCoordinates weatherService req log
    = (Throw (TypeError "Cannot convert object to primitive value"),
       log ++ [LogHttp (WeatherRoute.ip req) "GET" (WeatherRoute.url req)
                       (WeatherRoute.query req)])%list.
Proof.
  intros D svc req log fields entry Hfield [[Hlat Hlon] | (Hlon & Hlat & la & Hla)].
  - apply handler_unreadable; [rewrite Hlat; reflexivity | exact Hlon | ].
    unfold callAreCoordinatesValid. rewrite Hlat. cbn [toString].
    rewrite Hfield. reflexivity.
  - apply handler_unreadable; [exact Hlat | rewrite Hlon; reflexivity | ].
    unfold callAreCoordinatesValid. rewrite Hla, Hlon. cbn [toString].
    rewrite Hfield. reflexivity.
Qed.

Lemma handler_throws_on_unreadable_coordinate_witness :
  WeatherRoute.getWeatherByCoordinates
    {| IWeatherService.getWeatherByCoordinates := fun _ _ => eff_ret "sunny" |}
    {| WeatherRoute.ip := None;
       WeatherRoute.url := "/coordinates?lat[toString]=1&lon=0";
       WeatherRoute.query :=
         {| lat := JObj [("toString", JStr "1")]; lon := JStr "0" |} |} []
  = (Throw (TypeError "Cannot convert object to primitive value"),
     [LogHttp None "GET" "/coordinates?lat[toString]=1&lon=0"
              {| lat := JObj [("toString", JStr "1")]; lon := JStr "0" |}]).
Proof.
  exact (handler_throws_on_unreadable_coordinate string
           {| IWeatherService.getWeatherByCoordinates := fun _ _ => eff_ret "sunny" |}
           {| WeatherRoute.ip := None;
              WeatherRoute.url := "/coordinates?lat[toString]=1&lon=0";
              WeatherRoute.query :=
                {| lat := JObj [("toString", JStr "1")]; lon := JStr "0" |} |}
           [] [("toString", JStr "1")] (JStr "1") eq_refl
           (or_introl (conj eq_refl eq_refl))).
Defined.
